(** * Option-chain fetcher: fetch, dispatch and reshape

    A shallow embedding of [optionfetcher.py].  The module fetches the option
    market watch of two market segments over HTTP and reshapes the dual-leg
    records into one row per leg.

    - Python strings are [string]; [str.endswith] and [str.replace] are
      written out.
    - A parsed JSON body is a [json] value; a Python dict is an association
      list in insertion order (the order decides the column order of a
      DataFrame).
    - Exceptions are an inductive type [exn]; a call either returns or raises.
    - [pandas.DataFrame] is a record of column labels and rows of cells.  The
      frames live in a heap of Python objects: [calls.columns = ...],
      [calls['option_type'] = ...] and [rename(inplace=True)] update a frame
      in place, every other frame operation allocates a new one. *)

From Stdlib Require Import String Ascii List ZArith Bool Arith Lia Permutation.
From Stdlib Require Import DecimalString.
Import ListNotations.
Open Scope string_scope.
Open Scope list_scope.

Set Implicit Arguments.

(** ** Python strings *)

Module Py.

(** [s.endswith(suffix)] *)
Fixpoint endswith (s suffix : string) : bool :=
  (s =? suffix) ||
  match s with
  | EmptyString => false
  | String _ s' => endswith s' suffix
  end.

(** [s.replace(old, new)] for a non-empty [old]: every non-overlapping
    occurrence of [old], scanning from the left, becomes [new].  [skip]
    counts the characters of a matched occurrence still to be dropped. *)
Fixpoint replace_from (old new : string) (skip : nat) (s : string) : string :=
  match s with
  | EmptyString => EmptyString
  | String c s' =>
      match skip with
      | S k => replace_from old new k s'
      | O =>
          if prefix old s
          then new ++ replace_from old new (String.length old - 1) s'
          else String c (replace_from old new 0 s')
      end
  end.

(** With an empty [old], Python inserts [new] around every character. *)
Fixpoint intersperse (new s : string) : string :=
  match s with
  | EmptyString => new
  | String c s' => new ++ String c (intersperse new s')
  end.

Definition replace (s old new : string) : string :=
  match old with
  | EmptyString => intersperse new s
  | _ => replace_from old new 0 s
  end.

(** [str(n)] for an integer, as an f-string formats it. *)
Definition str_of_int (n : Z) : string :=
  NilZero.string_of_int (Z.to_int n).

(** [x in l] for a list of strings *)
Definition mem (x : string) (l : list string) : bool :=
  existsb (String.eqb x) l.

(** [d.get(key)] on a dict held in insertion order *)
Fixpoint dict_get {V : Type} (d : list (string * V)) (key : string) : option V :=
  match d with
  | [] => None
  | (k, v) :: d' => if k =? key then Some v else dict_get d' key
  end.

(** [d.get(key, default)] *)
Definition dict_get_default {V : Type} (d : list (string * V)) (key : string) (default : V) : V :=
  match dict_get d key with
  | Some v => v
  | None => default
  end.

Definition keys {V : Type} (d : list (string * V)) : list string := map fst d.

End Py.

(** ** JSON values *)

(** What [response.json()] can return.  A float is kept as the pair
    (mantissa, binary exponent) it denotes; no arithmetic is done on it. *)
#[warnings="-register-all"]
Inductive json : Type :=
| JNull
| JBool (b : bool)
| JInt (z : Z)
| JFloat (m e : Z)
| JStr (s : string)
| JArr (items : list json)
| JObj (fields : list (string * json)).

(** A raw option record: the dict of one element of
    [instrumentOptMarketWatch], keys in the order of the body. *)
Definition record : Type := list (string * json).

(** ** Constants *)

(** The keys of the [OptionData] TypedDict, in declaration order. *)
Definition OptionData_fields : list string :=
  [ "insCode_P"; "insCode_C"; "contractSize"; "uaInsCode"; "lVal18AFC_P";
    "lVal30_P"; "zTotTran_P"; "qTotTran5J_P"; "qTotCap_P"; "notionalValue_P";
    "pClosing_P"; "priceYesterday_P"; "oP_P"; "pDrCotVal_P"; "lval30_UA";
    "pClosing_UA"; "priceYesterday_UA"; "beginDate"; "endDate"; "strikePrice";
    "remainedDay"; "pDrCotVal_C"; "oP_C"; "pClosing_C"; "priceYesterday_C";
    "notionalValue_C"; "qTotCap_C"; "qTotTran5J_C"; "zTotTran_C"; "lVal30_C";
    "lVal18AFC_C"; "pMeDem_P"; "qTitMeDem_P"; "pMeOf_P"; "qTitMeOf_P";
    "pMeDem_C"; "qTitMeDem_C"; "pMeOf_C"; "qTitMeOf_C"; "yesterdayOP_C";
    "yesterdayOP_P" ].

Definition MARKETS_NUM : list (string * Z) :=
  [ ("bourse", 1%Z); ("fara_bourse", 2%Z) ].

Definition GENERAL_COLUMN_NAMES : list (string * string) :=
  [ ("uaInsCode", "ua_tse_code");
    ("lval30_UA", "ua_ticker");
    ("remainedDay", "days_to_maturity");
    ("strikePrice", "strike_price");
    ("contractSize", "contract_size");
    ("pClosing_UA", "ua_close_price");
    ("priceYesterday_UA", "ua_yesterday_price");
    ("beginDate", "begin_date");
    ("endDate", "end_date") ].

Definition SPECIFIC_COLUMN_NAMES : list (string * string) :=
  [ ("insCode", "tse_code");
    ("lVal18AFC", "ticker");
    ("zTotTran", "trades_num");
    ("qTotTran5J", "trades_volume");
    ("qTotCap", "trades_value");
    ("pDrCotVal", "last_price");
    ("pClosing", "close_price");
    ("priceYesterday", "yesterday_price");
    ("oP", "open_positions");
    ("yesterdayOP", "yesterday_open_positions");
    ("notionalValue", "notional_value");
    ("pMeDem", "bid_price");
    ("qTitMeDem", "bid_volume");
    ("pMeOf", "ask_price");
    ("qTitMeOf", "ask_volume");
    ("lVal30", "name") ].


(** ** Exceptions *)

(** What [requests.get] itself can raise. *)
Inductive transport_error : Type :=
| ConnectionError
| Timeout
| TooManyRedirects.

(** The subclasses of [requests.RequestException] the fetch can meet.
    [response.json()] raises [requests.exceptions.JSONDecodeError], a
    [RequestException] since requests 2.27. *)
Inductive request_exception : Type :=
| Transport (t : transport_error)
| HTTPError (status_code : Z)
| JSONDecodeError.

Inductive exn : Type :=
| ValueError (msg : string)
| KeyError (missing : list string)
| TypeError (msg : string)
| AttributeError (msg : string)
| InvalidIndexError
| RequestException (e : request_exception)
| KeyboardInterrupt
| SystemExit.

(** [isinstance(e, Exception)]: [KeyboardInterrupt] and [SystemExit] derive
    from [BaseException] only. *)
Definition is_Exception (e : exn) : bool :=
  match e with
  | KeyboardInterrupt | SystemExit => false
  | _ => true
  end.

(** [isinstance(e, requests.RequestException)] *)
Definition is_RequestException (e : exn) : bool :=
  match e with
  | RequestException _ => true
  | _ => false
  end.

Inductive result (A : Type) : Type :=
| Return (a : A)
| Raise (e : exn).

Arguments Return {A} a.
Arguments Raise {A} e.

(** [try: body  except Exception as e: handler(e)] *)
Definition try_except_Exception {A : Type} (body : result A) (handler : exn -> result A) : result A :=
  match body with
  | Return a => Return a
  | Raise e => if is_Exception e then handler e else Raise e
  end.

(** [try: body  except requests.RequestException as e: handler(e)] *)
Definition try_except_RequestException {A : Type} (body : result A) (handler : exn -> result A) : result A :=
  match body with
  | Return a => Return a
  | Raise e => if is_RequestException e then handler e else Raise e
  end.

(** ** Data fetching *)

(** The answer of the exchange to one [requests.get]: the call raises, or a
    response comes back with a status code and a body; [body] is [None] when
    the text is not JSON. *)
Inductive http_reply : Type :=
| Failed (t : transport_error)
| Response (status_code : Z) (body : option json).

(** The network, as the module sees it: a reply for every URL.  The
    [User-Agent] header is a random browser name and takes no part. *)
Definition network : Type := string -> http_reply.

(** [response.raise_for_status()]: requests raises [HTTPError] for the client
    and server error codes, 400 to 599, and for no other. *)
Definition raise_for_status (status_code : Z) : result unit :=
  if ((400 <=? status_code) && (status_code <? 600))%Z
  then Raise (RequestException (HTTPError status_code))
  else Return tt.

(** [response.json()] *)
Definition response_json (body : option json) : result json :=
  match body with
  | Some j => Return j
  | None => Raise (RequestException JSONDecodeError)
  end.

(** [json_response.get(key, default)]: only a dict has [get]. *)
Definition json_get (j : json) (key : string) (default : json) : result json :=
  match j with
  | JObj fields => Return (Py.dict_get_default fields key default)
  | _ => Raise (AttributeError "object has no attribute 'get'")
  end.

(** [len(data)] *)
Definition py_len (data : json) : result nat :=
  match data with
  | JArr items => Return (List.length items)
  | JObj fields => Return (List.length fields)
  | JStr s => Return (String.length s)
  | _ => Raise (TypeError "object has no len()")
  end.

(** The items [results.extend(data)] appends: the elements of a list, the
    keys of a dict, the characters of a string. *)
Definition py_iter (data : json) : result (list json) :=
  match data with
  | JArr items => Return items
  | JObj fields => Return (map (fun kv => JStr (fst kv)) fields)
  | JStr s => Return (map (fun c => JStr (String c EmptyString)) (list_ascii_of_string s))
  | _ => Raise (TypeError "object is not iterable")
  end.

Definition market_watch_url (market_num : Z) : string :=
  "https://cdn.tsetmc.com/api/Instrument/GetInstrumentOptionMarketWatch/"
    ++ Py.str_of_int market_num.

Definition invalid_market : exn :=
  ValueError "Invalid market value. Expected 'bourse' or 'fara_bourse'.".

(** [fetch_option_data(market)].  The first component lists the URLs given to
    [requests.get], in order; the second is what the call returns or raises.
    Log lines are not modelled. *)
Definition fetch_option_data (net : network) (market : string) : list string * result json :=
  match Py.dict_get MARKETS_NUM market with
  | None => ([], Raise invalid_market)
  | Some market_num =>
      let url := market_watch_url market_num in
      ([url],
       try_except_RequestException
         match net url with
         | Failed t => Raise (RequestException (Transport t))
         | Response status_code body =>
             match raise_for_status status_code with
             | Raise e => Raise e
             | Return _ =>
                 match response_json body with
                 | Raise e => Raise e
                 | Return json_response =>
                     match json_get json_response "instrumentOptMarketWatch" (JArr []) with
                     | Raise e => Raise e
                     | Return data =>
                         match py_len data with
                         | Raise e => Raise e
                         | Return _ => Return data
                         end
                     end
                 end
             end
         end
         (fun e => Raise e))
  end.

(** The loop over [futures] of [fetch_entire_market_data]: [future.result()]
    gives back what the task returned or raises what it raised. *)
Fixpoint collect_results (futures : list (result json * string)) (results : list json)
  : result (list json) :=
  match futures with
  | [] => Return results
  | (future, market) :: rest =>
      match
        try_except_Exception
          match future with
          | Raise e => Raise e
          | Return data =>
              match py_iter data with
              | Raise e => Raise e
              | Return items => Return (results ++ items)
              end
          end
          (fun _ => Return results)
      with
      | Raise e => Raise e
      | Return results' => collect_results rest results'
      end
  end.

(** [fetch_entire_market_data()].  One task per key of [MARKETS_NUM] is
    submitted to the pool; the two tasks share nothing, so each outcome is
    that of its own [fetch_option_data], and the results are read in the
    order of [futures], the order of the keys. *)
Definition fetch_entire_market_data (net : network) : result (list json) :=
  let futures :=
    map (fun market => (snd (fetch_option_data net market), market)) (Py.keys MARKETS_NUM) in
  collect_results futures [].

(** ** DataFrames *)

(** A cell holds the value read from the record, or NaN where the record has
    no such key.  Values are kept as read: the storage type pandas picks for a
    column is not modelled. *)
Inductive cell : Type :=
| Cell (v : json)
| NaN.

(** Column labels and, row by row, one cell per label.  A frame built from
    [n] records has [n] rows even when it has no column. *)
Record DataFrame : Type := mkDataFrame {
  columns : list string;
  data : list (list cell)
}.

Module pd.

(** The labels of [l] in order of first appearance, skipping those in [seen]. *)
Fixpoint unique_from (seen l : list string) : list string :=
  match l with
  | [] => []
  | x :: l' =>
      if Py.mem x seen then unique_from seen l'
      else x :: unique_from (x :: seen) l'
  end.

(** The columns of [DataFrame(records)]: the keys of the dicts, each at its
    first appearance. *)
Definition union_keys (records : list record) : list string :=
  unique_from [] (concat (map (@Py.keys json) records)).

Definition cell_of (r : record) (label : string) : cell :=
  match Py.dict_get r label with
  | Some v => Cell v
  | None => NaN
  end.

(** [pd.DataFrame(records)] for a list of dicts *)
Definition from_records (records : list record) : DataFrame :=
  let cols := union_keys records in
  mkDataFrame cols (map (fun r => map (cell_of r) cols) records).

(** Position of the first [label] in [cols]. *)
Fixpoint index_of (label : string) (cols : list string) : nat :=
  match cols with
  | [] => 0
  | c :: cols' => if c =? label then 0 else S (index_of label cols')
  end.

(** [df[labels]] for a list of labels, on a frame whose labels are distinct
    (those of a frame built from dicts are): a new frame with the chosen
    columns; [KeyError] names the labels the frame lacks. *)
Definition getitem (df : DataFrame) (labels : list string) : result DataFrame :=
  match filter (fun label => negb (Py.mem label (columns df))) labels with
  | [] =>
      Return (mkDataFrame labels
                (map (fun row => map (fun label => nth (index_of label (columns df)) row NaN) labels)
                     (data df)))
  | missing => Raise (KeyError missing)
  end.

(** [df.columns = labels] *)
Definition set_columns (df : DataFrame) (labels : list string) : result DataFrame :=
  if Nat.eqb (List.length labels) (List.length (columns df))
  then Return (mkDataFrame labels (data df))
  else Raise (ValueError "Length mismatch").

(** [df.rename(columns=mapper)]: a label that is a key of [mapper] becomes its
    value, any other label stays. *)
Definition rename (df : DataFrame) (mapper : list (string * string)) : DataFrame :=
  mkDataFrame (map (fun c => Py.dict_get_default mapper c c) (columns df)) (data df).

(** [df[label] = v] for a scalar [v]: a new last column, or, when the label is
    there already, [v] in every cell under it. *)
Definition setitem (df : DataFrame) (label : string) (v : json) : DataFrame :=
  if Py.mem label (columns df)
  then mkDataFrame (columns df)
         (map (fun row =>
                 map (fun cv => if fst cv =? label then Cell v else snd cv)
                     (combine (columns df) row))
              (data df))
  else mkDataFrame (columns df ++ [label]) (map (fun row => row ++ [Cell v]) (data df)).

Fixpoint distinct (l : list string) : bool :=
  match l with
  | [] => true
  | x :: l' => negb (Py.mem x l') && distinct l'
  end.

Fixpoint same_labels (a b : list string) : bool :=
  match a, b with
  | [], [] => true
  | x :: a', y :: b' => (x =? y) && same_labels a' b'
  | _, _ => false
  end.

(** The row of a frame with labels [cols], laid out under [new_cols]. *)
Definition reindex (cols new_cols : list string) (row : list cell) : list cell :=
  map (fun label => if Py.mem label cols then nth (index_of label cols) row NaN else NaN) new_cols.

(** [pd.concat([a, b], ignore_index=True)]: the rows of [a] then the rows of
    [b].  Equal label lists are kept; different ones are joined (the labels
    of [a], then the new ones of [b]) and need distinct labels on both
    sides. *)
Definition concat (a b : DataFrame) : result DataFrame :=
  if same_labels (columns a) (columns b)
  then Return (mkDataFrame (columns a) (data a ++ data b))
  else if distinct (columns a) && distinct (columns b)
  then
    let cols := columns a ++ filter (fun c => negb (Py.mem c (columns a))) (columns b) in
    Return (mkDataFrame cols
              (map (reindex (columns a) cols) (data a)
               ++ map (reindex (columns b) cols) (data b)))
  else Raise InvalidIndexError.

(** [df.to_dict("records")]: each row as the pairs of label and cell. *)
Definition to_dict_records (df : DataFrame) : list (list (string * cell)) :=
  map (combine (columns df)) (data df).

End pd.

(** ** The heap of Python objects *)

Definition loc : Type := nat.

Inductive obj : Type :=
| PyList (items : list record)
| Frame (df : DataFrame).

Definition heap : Type := list obj.

(** A computation on the heap that returns or raises. *)
Definition M (A : Type) : Type := heap -> result A * heap.

Definition ret {A : Type} (a : A) : M A := fun h => (Return a, h).

Definition bind {A B : Type} (m : M A) (k : A -> M B) : M B :=
  fun h =>
    match m h with
    | (Return a, h') => k a h'
    | (Raise e, h') => (Raise e, h')
    end.

Definition lift {A : Type} (r : result A) : M A := fun h => (r, h).

Declare Scope heap_scope.
Delimit Scope heap_scope with heap.
Notation "x <- m ;; k" := (bind m (fun x => k))
  (at level 100, m at next level, right associativity) : heap_scope.
Notation "m ;;; k" := (bind m (fun _ => k))
  (at level 100, right associativity) : heap_scope.
Open Scope heap_scope.

Fixpoint update (l : loc) (o : obj) (h : heap) : heap :=
  match h, l with
  | [], _ => []
  | _ :: h', O => o :: h'
  | x :: h', S l' => x :: update l' o h'
  end.

(** A new object, at the next free location. *)
Definition new (o : obj) : M loc := fun h => (Return (List.length h), h ++ [o]).

Definition read_list (l : loc) : M (list record) :=
  fun h =>
    match nth_error h l with
    | Some (PyList items) => (Return items, h)
    | _ => (Raise (TypeError "not a list of records"), h)
    end.

Definition read_frame (l : loc) : M DataFrame :=
  fun h =>
    match nth_error h l with
    | Some (Frame df) => (Return df, h)
    | _ => (Raise (TypeError "not a DataFrame"), h)
    end.

Definition write_frame (l : loc) (df : DataFrame) : M unit :=
  fun h => (Return tt, update l (Frame df) h).

(** The pandas calls of the module, on locations. *)

Definition pd_DataFrame (raw_data : loc) : M loc :=
  records <- read_list raw_data ;;
  new (Frame (pd.from_records records)).

Definition df_columns (df : loc) : M (list string) :=
  f <- read_frame df ;;
  ret (columns f).

Definition df_getitem (df : loc) (labels : list string) : M loc :=
  f <- read_frame df ;;
  f' <- lift (pd.getitem f labels) ;;
  new (Frame f').

Definition df_set_columns (df : loc) (labels : list string) : M unit :=
  f <- read_frame df ;;
  f' <- lift (pd.set_columns f labels) ;;
  write_frame df f'.

Definition df_rename (df : loc) (mapper : list (string * string)) : M loc :=
  f <- read_frame df ;;
  new (Frame (pd.rename f mapper)).

Definition df_rename_inplace (df : loc) (mapper : list (string * string)) : M unit :=
  f <- read_frame df ;;
  write_frame df (pd.rename f mapper).

Definition df_setitem (df : loc) (label : string) (v : json) : M unit :=
  f <- read_frame df ;;
  write_frame df (pd.setitem f label v).

Definition pd_concat (a b : loc) : M loc :=
  fa <- read_frame a ;;
  fb <- read_frame b ;;
  f <- lift (pd.concat fa fb) ;;
  new (Frame f).

(** ** Data cleaning *)

(** [clean_entire_market_data(raw_data)] *)
Definition clean_entire_market_data (raw_data : loc) : M loc :=
  df <- pd_DataFrame raw_data ;;
  df_cols <- df_columns df ;;
  let general_columns :=
    filter (fun col => negb (Py.endswith col "_P" || Py.endswith col "_C")) df_cols in
  let specific_columns :=
    map (fun col => Py.replace col "_C" "") (filter (fun col => Py.endswith col "_C") df_cols) in
  calls <- df_getitem df (general_columns ++ map (fun col => (col ++ "_C")%string) specific_columns) ;;
  calls_cols <- df_columns calls ;;
  df_set_columns calls (map (fun col => Py.replace col "_C" "") calls_cols) ;;;
  calls <- df_rename calls SPECIFIC_COLUMN_NAMES ;;
  df_setitem calls "option_type" (JStr "call") ;;;
  puts <- df_getitem df (general_columns ++ map (fun col => (col ++ "_P")%string) specific_columns) ;;
  puts_cols <- df_columns puts ;;
  df_set_columns puts (map (fun col => Py.replace col "_P" "") puts_cols) ;;;
  puts <- df_rename puts SPECIFIC_COLUMN_NAMES ;;
  df_setitem puts "option_type" (JStr "put") ;;;
  result_df <- pd_concat calls puts ;;
  df_rename_inplace result_df GENERAL_COLUMN_NAMES ;;;
  ret result_df.

(** The table a call leaves behind: the frame at the returned location, or
    the exception. *)
Definition table (h : heap) (r : result loc) : option (result DataFrame) :=
  match r with
  | Raise e => Some (Raise e)
  | Return l =>
      match nth_error h l with
      | Some (Frame df) => Some (Return df)
      | _ => None
      end
  end.

(** [reshape records]: the outcome of the call on a list [records] that is
    the only object of the heap. *)
Definition reshape (records : list record) : option (result DataFrame) :=
  let '(r, h) := clean_entire_market_data 0 [PyList records] in
  table h r.

(** ** The frames of a call, read without the heap *)

(** Lines 184 and 185: the general labels and the stems of the call
    labels. *)
Definition general_labels (cols : list string) : list string :=
  filter (fun col => negb (Py.endswith col "_P" || Py.endswith col "_C")) cols.

Definition specific_stems (cols : list string) : list string :=
  map (fun col => Py.replace col "_C" "") (filter (fun col => Py.endswith col "_C") cols).

(** The labels picked for a leg. *)
Definition leg_labels (suffix : string) (cols : list string) : list string :=
  general_labels cols ++ map (fun col => (col ++ suffix)%string) (specific_stems cols).

(** The frame of one leg when [df[...]] has given [picked]: the labels
    without the suffix, renamed by [SPECIFIC_COLUMN_NAMES], and the tag. *)
Definition leg_frame (suffix tag : string) (picked : DataFrame) : DataFrame :=
  pd.setitem
    (pd.rename
       (mkDataFrame (map (fun col => Py.replace col suffix "") (columns picked)) (data picked))
       SPECIFIC_COLUMN_NAMES)
    "option_type" (JStr tag).

(** The frame the call returns, or the exception it raises. *)
Definition clean_frame (records : list record) : result DataFrame :=
  let df := pd.from_records records in
  match pd.getitem df (leg_labels "_C" (columns df)) with
  | Raise e => Raise e
  | Return picked_calls =>
      match pd.getitem df (leg_labels "_P" (columns df)) with
      | Raise e => Raise e
      | Return picked_puts =>
          match pd.concat (leg_frame "_C" "call" picked_calls)
                          (leg_frame "_P" "put" picked_puts) with
          | Raise e => Raise e
          | Return result_df => Return (pd.rename result_df GENERAL_COLUMN_NAMES)
          end
      end
  end.

(** ** The shape of the raw records and the rows of the specification *)

(** [s.removesuffix(suffix)] *)
Fixpoint removesuffix (s suffix : string) : string :=
  if s =? suffix then EmptyString
  else
    match s with
    | EmptyString => EmptyString
    | String c s' => String c (removesuffix s' suffix)
    end.

(** A general field carries neither leg suffix. *)
Definition is_general (col : string) : bool :=
  negb (Py.endswith col "_P" || Py.endswith col "_C").

(** The label [mapper] gives to [col]; [col] itself when it has none. *)
Definition renamed (mapper : list (string * string)) (col : string) : string :=
  Py.dict_get_default mapper col col.

(** A record follows the Raw Option Record shape when its keys are those of
    [OptionData], each once, in any order. *)
Definition follows_shape (r : record) : Prop :=
  Permutation (Py.keys r) OptionData_fields.

(** The row of one leg as the specification words it: the general fields
    under their names of [GENERAL_COLUMN_NAMES], the fields of the leg with
    the suffix dropped under their names of [SPECIFIC_COLUMN_NAMES], and the
    tag. *)
Definition spec_leg (suffix tag : string) (r : record) : list (string * cell) :=
  map (fun kv => (renamed GENERAL_COLUMN_NAMES (fst kv), Cell (snd kv)))
      (filter (fun kv => is_general (fst kv)) r)
  ++ map (fun kv => (renamed SPECIFIC_COLUMN_NAMES (removesuffix (fst kv) suffix), Cell (snd kv)))
         (filter (fun kv => Py.endswith (fst kv) suffix) r)
  ++ [("option_type", Cell (JStr tag))].

Definition spec_call_leg : record -> list (string * cell) := spec_leg "_C" "call".
Definition spec_put_leg : record -> list (string * cell) := spec_leg "_P" "put".

(** The rows of an outcome, as dicts; none when the call raised. *)
Definition rows_of (outcome : option (result DataFrame)) : list (list (string * cell)) :=
  match outcome with
  | Some (Return df) => pd.to_dict_records df
  | _ => []
  end.

(** The labels of the returned frame, for a raw frame with labels [cols]. *)
Definition final_labels (cols : list string) : list string :=
  map (renamed GENERAL_COLUMN_NAMES) (filter is_general cols)
  ++ map (fun c => renamed SPECIFIC_COLUMN_NAMES (Py.replace c "_C" ""))
         (filter (fun c => Py.endswith c "_C") cols)
  ++ ["option_type"].

(** The cells of the row of one leg of [r]. *)
Definition leg_cells (suffix tag : string) (cols : list string) (r : record) : list cell :=
  map (pd.cell_of r) (leg_labels suffix cols) ++ [Cell (JStr tag)].

(** What the reshaping needs of the labels [cols] of the raw frame: the
    suffixes occur at the end of a label only, the two legs mirror each
    other, and the final labels are distinct. *)
Record Shape (cols : list string) : Prop := mkShape {
  shape_distinct : NoDup cols;
  shape_general : forall g, In g cols -> is_general g = true ->
      Py.replace g "_C" "" = g /\ Py.replace g "_P" "" = g /\
      renamed SPECIFIC_COLUMN_NAMES g = g;
  shape_call : forall c, In c cols -> Py.endswith c "_C" = true ->
      (Py.replace c "_C" "" ++ "_C")%string = c /\
      In (Py.replace c "_C" "" ++ "_P")%string cols /\
      Py.replace (Py.replace c "_C" "" ++ "_P") "_P" "" = Py.replace c "_C" "" /\
      renamed GENERAL_COLUMN_NAMES (renamed SPECIFIC_COLUMN_NAMES (Py.replace c "_C" ""))
      = renamed SPECIFIC_COLUMN_NAMES (Py.replace c "_C" "");
  shape_put : forall p, In p cols -> Py.endswith p "_P" = true ->
      In (removesuffix p "_P" ++ "_C")%string cols;
  shape_labels : NoDup (final_labels cols)
}.

(** The kind of a raw field. *)
Inductive field_kind : Type := GeneralField | CallField | PutField.

Definition kind_of (col : string) : field_kind :=
  if Py.endswith col "_C" then CallField
  else if Py.endswith col "_P" then PutField
  else GeneralField.

(** ** Sample data *)

Definition synthetic_record : record :=
  [ ("uaInsCode", JStr "X");
    ("insCode_C", JStr "c1"); ("pClosing_C", JInt 100);
    ("insCode_P", JStr "p1"); ("pClosing_P", JInt 50) ].

(** A record with every field of [OptionData]; each value is the name of its
    field. *)
Definition sample_record : record :=
  map (fun k => (k, JStr k)) OptionData_fields.

(** A reply with status 304 and a well-formed body. *)
Definition net_not_modified : network :=
  fun _ => Response 304 (Some (JObj [("instrumentOptMarketWatch", JArr [JObj synthetic_record])])).

(** A reply with status 200 whose text is not JSON. *)
Definition net_garbled : network :=
  fun _ => Response 200 None.

(** The bourse answers with one record, the fara bourse times out. *)
Definition net_half : network :=
  fun url =>
    if url =? market_watch_url 1
    then Response 200 (Some (JObj [("instrumentOptMarketWatch", JArr [JObj synthetic_record])]))
    else Failed Timeout.

(** The conditions of the fetch claim. *)

Definition raises_network_error (r : result json) : Prop :=
  exists e, r = Raise e /\ is_RequestException e = true.

(** The request fails or the status is not a 2xx. *)
Definition failed_or_not_2xx (reply : http_reply) : Prop :=
  match reply with
  | Failed _ => True
  | Response status_code _ => ~ (200 <= status_code < 300)%Z
  end.

(** The request fails, the status is an error code, or the body is not
    JSON. *)
Definition failed_or_error_status_or_not_json (reply : http_reply) : Prop :=
  match reply with
  | Failed _ => True
  | Response status_code body => (400 <= status_code < 600)%Z \/ body = None
  end.

(** [key] holds [v] in exactly one of [rows]. *)
Definition in_exactly_one_row (key : string) (v : json) (rows : list (list (string * cell))) : Prop :=
  exists i, (exists row, nth_error rows i = Some row /\ Py.dict_get row key = Some (Cell v)) /\
    forall j, (exists row, nth_error rows j = Some row /\ Py.dict_get row key = Some (Cell v)) -> j = i.

(** ** Frames of any input *)

(** Every row has one cell per label. *)
Definition rectangular (df : DataFrame) : Prop :=
  Forall (fun row => List.length row = List.length (columns df)) (data df).

(** Every row holds [tag] under [option_type]. *)
Definition tagged (tag : string) (rows : list (list (string * cell))) : Prop :=
  Forall (fun row => Py.dict_get row "option_type" = Some (Cell (JStr tag))) rows.

(** A record outside the shape: the general label [b_Cx] holds the call
    suffix inside, so the two legs come out with different labels. *)
Definition lopsided_record : record :=
  [ ("a_C", JInt 1); ("a_P", JInt 2); ("b_Cx", JInt 3) ].

(** A record with a call field and no put field. *)
Definition call_only_record : record :=
  [ ("uaInsCode", JStr "X"); ("insCode_C", JStr "c1") ].

(** [len(data)] is defined: [data] is a list, a dict or a string. *)
Definition has_len (data : json) : bool :=
  match data with
  | JArr _ | JObj _ | JStr _ => true
  | _ => false
  end.

(** A reply whose data field is [null]. *)
Definition net_null : network :=
  fun _ => Response 200 (Some (JObj [("instrumentOptMarketWatch", JNull)])).

(** A reply whose JSON body is a list, not an object. *)
Definition net_list : network :=
  fun _ => Response 200 (Some (JArr [JObj synthetic_record])).


(** No market answers. *)
Definition net_down : network := fun _ => Failed ConnectionError.

(** ** The pipeline and the script *)

(** The items as dicts, when each of them is one. *)
Fixpoint as_records (items : list json) : option (list record) :=
  match items with
  | [] => Some []
  | JObj fields :: rest =>
      match as_records rest with
      | Some records => Some (fields :: records)
      | None => None
      end
  | _ :: _ => None
  end.

(** [fetch_cleaned_entire_market_data()]: the list the dispatcher built is a
    new object of the heap, and the cleaning reads it.  The model covers the
    lists of dicts; from a list that holds anything else [pd.DataFrame] builds
    a frame of another kind, and there the model gives [None]. *)
Definition fetch_cleaned_entire_market_data (net : network) : option (M loc) :=
  match fetch_entire_market_data net with
  | Raise e => Some (lift (Raise e))
  | Return items =>
      match as_records items with
      | None => None
      | Some records =>
          Some (raw_data <- new (PyList records) ;;
                cleaned_data <- clean_entire_market_data raw_data ;;
                ret cleaned_data)
      end
  end.

Definition csv_path : string := "TSETMC_sample_data.csv".

(** What the script can meet: an exception of the calls above, or the
    [IndexError] of [data.to_dict("records")[0]] on a frame without rows. *)
Inductive script_exn : Type :=
| Raised (e : exn)
| IndexError.

Definition is_script_Exception (e : script_exn) : bool :=
  match e with
  | Raised e => is_Exception e
  | IndexError => true
  end.

(** What the script leaves behind: the file it wrote, the first record it
    logged, the exception it logged. *)
Inductive event : Type :=
| Saved (path : string) (df : DataFrame)
| FirstRecord (first_record : list (string * cell))
| LoggedException (e : script_exn).

(** [dict(pairs)]: a key keeps its first place and takes its last value. *)
Fixpoint dict_set (d : list (string * cell)) (key : string) (v : cell) : list (string * cell) :=
  match d with
  | [] => [(key, v)]
  | (k, v') :: d' => if k =? key then (k, v) :: d' else (k, v') :: dict_set d' key v
  end.

Definition dict_of_pairs (pairs : list (string * cell)) : list (string * cell) :=
  fold_left (fun d kv => dict_set d (fst kv) (snd kv)) pairs [].

(** [except Exception as e: logger.exception(...)] around the events so far:
    the exception is logged, or it escapes. *)
Definition except_Exception (events : list event) (e : script_exn)
  : list event * option script_exn :=
  if is_script_Exception e then (events ++ [LoggedException e], None) else (events, Some e).

(** The script under [if __name__ == "__main__"]: the events, and the
    exception that escapes, if one does.  [to_csv] says whether the write
    succeeds. *)
Definition main (net : network) (to_csv : string -> DataFrame -> result unit) (h : heap)
  : option (list event * option script_exn) :=
  match fetch_cleaned_entire_market_data net with
  | None => None
  | Some pipeline =>
      match table (snd (pipeline h)) (fst (pipeline h)) with
      | None => None
      | Some (Raise e) => Some (except_Exception [] (Raised e))
      | Some (Return data) =>
          match to_csv csv_path data with
          | Raise e => Some (except_Exception [] (Raised e))
          | Return _ =>
              match map dict_of_pairs (pd.to_dict_records data) with
              | [] => Some (except_Exception [Saved csv_path data] IndexError)
              | first_record :: _ =>
                  Some ([Saved csv_path data; FirstRecord first_record], None)
              end
          end
      end
  end.

(** The record without the key [key]. *)
Definition without (key : string) (r : record) : record :=
  filter (fun kv => negb (fst kv =? key)) r.

(** A record with a put field that has no call twin. *)
Definition put_only_record : record :=
  [ ("uaInsCode", JStr "X"); ("insCode_C", JStr "c1"); ("insCode_P", JStr "p1");
    ("pClosing_P", JInt 50) ].

(** ** The types of the raw fields *)

Inductive field_type : Type := Tstr | Tint | Tfloat.

(** The [OptionData] TypedDict: each key with the type it declares. *)
Definition OptionData : list (string * field_type) :=
  [ ("insCode_P", Tstr); ("insCode_C", Tstr); ("contractSize", Tint);
    ("uaInsCode", Tstr); ("lVal18AFC_P", Tstr); ("lVal30_P", Tstr);
    ("zTotTran_P", Tint); ("qTotTran5J_P", Tint); ("qTotCap_P", Tfloat);
    ("notionalValue_P", Tfloat); ("pClosing_P", Tint); ("priceYesterday_P", Tint);
    ("oP_P", Tint); ("pDrCotVal_P", Tint); ("lval30_UA", Tstr);
    ("pClosing_UA", Tint); ("priceYesterday_UA", Tint); ("beginDate", Tstr);
    ("endDate", Tstr); ("strikePrice", Tint); ("remainedDay", Tint);
    ("pDrCotVal_C", Tint); ("oP_C", Tint); ("pClosing_C", Tint);
    ("priceYesterday_C", Tint); ("notionalValue_C", Tfloat); ("qTotCap_C", Tfloat);
    ("qTotTran5J_C", Tint); ("zTotTran_C", Tint); ("lVal30_C", Tstr);
    ("lVal18AFC_C", Tstr); ("pMeDem_P", Tint); ("qTitMeDem_P", Tint);
    ("pMeOf_P", Tint); ("qTitMeOf_P", Tint); ("pMeDem_C", Tint);
    ("qTitMeDem_C", Tint); ("pMeOf_C", Tint); ("qTitMeOf_C", Tint);
    ("yesterdayOP_C", Tint); ("yesterdayOP_P", Tint) ].

(** [v] is a value of the type [t]: a string, an integer of the 64-bit range
    or a float. *)
Definition has_type (t : field_type) (v : json) : bool :=
  match t, v with
  | Tstr, JStr _ => true
  | Tint, JInt z => ((- 2 ^ 63 <=? z) && (z <? 2 ^ 63))%Z
  | Tfloat, JFloat _ _ => true
  | _, _ => false
  end.

(** Every field of [r] holds a value of the type [OptionData] declares for
    its key.  pandas stores a column whose values are of one type as they
    are; it converts the values of a column that mixes integers, floats and
    nulls.  With records typed so, every column of the raw frame is of one
    type, and so is every column of the result, the two keys of a stem being
    declared alike. *)
Definition typed_as_OptionData (r : record) : bool :=
  forallb (fun kv =>
             match Py.dict_get OptionData (fst kv) with
             | Some t => has_type t (snd kv)
             | None => false
             end) r.

(** The type [OptionData] declares for [key]. *)
Definition declared_type (key : string) : field_type :=
  match Py.dict_get OptionData key with
  | Some t => t
  | None => Tstr
  end.

Definition cell_has_type (t : field_type) (c : cell) : bool :=
  match c with
  | Cell v => has_type t v
  | NaN => false
  end.

(** Column by column the frame holds values of one type, those of [types]. *)
Definition column_types (types : list field_type) (df : DataFrame) : Prop :=
  Forall (fun row => Forall2 (fun t c => cell_has_type t c = true) types row) (data df).

(** A record with every field of [OptionData], typed as declared. *)
Definition typed_sample_record : record :=
  map (fun kt =>
         (fst kt,
          match snd kt with
          | Tstr => JStr (fst kt)
          | Tint => JInt 100
          | Tfloat => JFloat 3 (-1)
          end)) OptionData.

(** * Proofs *)

Unset Implicit Arguments.

(** ** Fetching *)

(** C8: for each of the two markets, [fetch_option_data] calls [requests.get]
    exactly once, with the market watch URL that ends in the number of the
    market: 1 for the bourse, 2 for the fara bourse. *)
Theorem fetch_option_data_one_request (net : network) :
  fst (fetch_option_data net "bourse")
  = ["https://cdn.tsetmc.com/api/Instrument/GetInstrumentOptionMarketWatch/1"] /\
  fst (fetch_option_data net "fara_bourse")
  = ["https://cdn.tsetmc.com/api/Instrument/GetInstrumentOptionMarketWatch/2"].
Proof. split; reflexivity. Qed.

Lemma dict_get_MARKETS_NUM_None (market : string) :
  market <> "bourse" -> market <> "fara_bourse" -> Py.dict_get MARKETS_NUM market = None.
Proof.
  intros Hb Hf.
  change (Py.dict_get MARKETS_NUM market)
    with (if "bourse" =? market then Some 1%Z
          else if "fara_bourse" =? market then Some 2%Z else None).
  destruct ("bourse" =? market) eqn:E1.
  - apply String.eqb_eq in E1. congruence.
  - destruct ("fara_bourse" =? market) eqn:E2; [|reflexivity].
    apply String.eqb_eq in E2. congruence.
Qed.

(** C4: for a market other than the two known ones, [fetch_option_data] raises
    the invalid-market [ValueError], makes no request and returns nothing. *)
Theorem fetch_option_data_invalid_market (net : network) (market : string) :
  market <> "bourse" -> market <> "fara_bourse" ->
  fetch_option_data net market = ([], Raise invalid_market).
Proof.
  intros Hb Hf. unfold fetch_option_data.
  rewrite (dict_get_MARKETS_NUM_None market Hb Hf). reflexivity.
Qed.

Lemma fetch_option_data_invalid_market_witness :
  fetch_option_data net_half "otc" = ([], Raise invalid_market).
Proof.
  apply fetch_option_data_invalid_market; intro H; discriminate H.
Defined.

(** Every exception a fetch raises derives from [Exception]. *)
Lemma fetch_option_data_raises_Exception (net : network) (market : string) (e : exn) :
  snd (fetch_option_data net market) = Raise e -> is_Exception e = true.
Proof.
  unfold fetch_option_data.
  destruct (Py.dict_get MARKETS_NUM market) as [market_num|]; cbn [snd].
  - destruct (net (market_watch_url market_num)) as [t|status_code body].
    + cbn. intros [= <-]. reflexivity.
    + unfold raise_for_status.
      destruct ((400 <=? status_code)%Z && (status_code <? 600)%Z).
      * cbn. intros [= <-]. reflexivity.
      * destruct body as [[| | | | | |fields]|]; cbn; try (intros [= <-]; reflexivity).
        destruct (Py.dict_get_default fields _ _); cbn;
          try discriminate; intros [= <-]; reflexivity.
  - intros [= <-]. reflexivity.
Qed.

(** Whatever a fetch returns went through [len] and can be iterated. *)
Lemma fetch_option_data_returns_iterable (net : network) (market : string) (d : json) :
  snd (fetch_option_data net market) = Return d -> exists items, py_iter d = Return items.
Proof.
  unfold fetch_option_data.
  destruct (Py.dict_get MARKETS_NUM market) as [market_num|]; cbn [snd]; [|discriminate].
  destruct (net (market_watch_url market_num)) as [t|status_code body]; [discriminate|].
  unfold raise_for_status.
  destruct ((400 <=? status_code)%Z && (status_code <? 600)%Z); [discriminate|].
  destruct body as [[| | | | | |fields]|]; cbn; try discriminate.
  destruct (Py.dict_get_default fields _ _) eqn:E; cbn; try discriminate;
    intros [= <-]; cbn; eauto.
Qed.

(** C3: [fetch_entire_market_data] always returns.  With both fetches
    successful it returns the records of the bourse followed by those of the
    fara bourse; with one failed, the records of the other; with both failed,
    the empty list.  The first part says so for whatever the fetches return
    (the items [results.extend] takes from it); the second part names the
    result when they return lists: the two lists one after the other. *)
Theorem fetch_entire_market_data_tolerates_failure (net : network) :
  match snd (fetch_option_data net "bourse"), snd (fetch_option_data net "fara_bourse") with
  | Return d1, Return d2 =>
      exists l1 l2, py_iter d1 = Return l1 /\ py_iter d2 = Return l2 /\
                    fetch_entire_market_data net = Return (l1 ++ l2)
  | Return d1, Raise _ =>
      exists l1, py_iter d1 = Return l1 /\ fetch_entire_market_data net = Return l1
  | Raise _, Return d2 =>
      exists l2, py_iter d2 = Return l2 /\ fetch_entire_market_data net = Return l2
  | Raise _, Raise _ => fetch_entire_market_data net = Return []
  end
  /\
  match snd (fetch_option_data net "bourse"), snd (fetch_option_data net "fara_bourse") with
  | Return (JArr records1), Return (JArr records2) =>
      fetch_entire_market_data net = Return (records1 ++ records2)
  | Return (JArr records1), Raise _ =>
      fetch_entire_market_data net = Return records1
  | Raise _, Return (JArr records2) =>
      fetch_entire_market_data net = Return records2
  | Raise _, Raise _ => fetch_entire_market_data net = Return []
  | _, _ => True
  end.
Proof.
  unfold fetch_entire_market_data.
  change (Py.keys MARKETS_NUM) with ["bourse"; "fara_bourse"].
  cbn [map collect_results].
  destruct (snd (fetch_option_data net "bourse")) as [d1|e1] eqn:E1;
    destruct (snd (fetch_option_data net "fara_bourse")) as [d2|e2] eqn:E2.
  - split.
    + destruct (fetch_option_data_returns_iterable _ _ _ E1) as [l1 H1].
      destruct (fetch_option_data_returns_iterable _ _ _ E2) as [l2 H2].
      exists l1, l2. rewrite H1, H2. cbn. auto.
    + destruct d1 as [| | | | |records1|]; try exact I;
        destruct d2 as [| | | | |records2|]; try exact I.
      reflexivity.
  - split.
    + destruct (fetch_option_data_returns_iterable _ _ _ E1) as [l1 H1].
      exists l1. rewrite H1. cbn.
      rewrite (fetch_option_data_raises_Exception _ _ _ E2). auto.
    + destruct d1 as [| | | | |records1|]; try exact I.
      cbn. rewrite (fetch_option_data_raises_Exception _ _ _ E2). reflexivity.
  - split.
    + destruct (fetch_option_data_returns_iterable _ _ _ E2) as [l2 H2].
      exists l2. rewrite H2. cbn.
      rewrite (fetch_option_data_raises_Exception _ _ _ E1). auto.
    + destruct d2 as [| | | | |records2|]; try exact I.
      cbn. rewrite (fetch_option_data_raises_Exception _ _ _ E1). reflexivity.
  - split; cbn;
      rewrite (fetch_option_data_raises_Exception _ _ _ E1);
      rewrite (fetch_option_data_raises_Exception _ _ _ E2); reflexivity.
Qed.

Example fetch_entire_market_data_half :
  fetch_entire_market_data net_half = Return [JObj synthetic_record].
Proof. reflexivity. Qed.

Lemma error_status_dec (status_code : Z) :
  ((400 <=? status_code) && (status_code <? 600))%Z = true <-> (400 <= status_code < 600)%Z.
Proof. rewrite andb_true_iff, Z.leb_le, Z.ltb_lt. tauto. Qed.

(** What a fetch for a known market returns or raises, reply by reply. *)
Lemma fetch_option_data_outcome (net : network) (market : string) (market_num : Z) :
  Py.dict_get MARKETS_NUM market = Some market_num ->
  snd (fetch_option_data net market) =
  match net (market_watch_url market_num) with
  | Failed t => Raise (RequestException (Transport t))
  | Response status_code body =>
      if ((400 <=? status_code) && (status_code <? 600))%Z
      then Raise (RequestException (HTTPError status_code))
      else
        match body with
        | None => Raise (RequestException JSONDecodeError)
        | Some (JObj fields) =>
            let data := Py.dict_get_default fields "instrumentOptMarketWatch" (JArr []) in
            match py_len data with
            | Return _ => Return data
            | Raise e => Raise e
            end
        | Some _ => Raise (AttributeError "object has no attribute 'get'")
        end
  end.
Proof.
  intros Hnum. unfold fetch_option_data. rewrite Hnum. cbn [snd].
  destruct (net (market_watch_url market_num)) as [t|status_code body]; [reflexivity|].
  unfold raise_for_status.
  destruct ((400 <=? status_code)%Z && (status_code <? 600)%Z); [reflexivity|].
  destruct body as [[| | | | | |fields]|]; try reflexivity.
  cbn. destruct (py_len _) as [n|e] eqn:E; cbn; [reflexivity|].
  destruct (Py.dict_get_default fields _ _); cbn in E; try discriminate;
    injection E as <-; reflexivity.
Qed.

(** C5, as the code has it: for a known market, [fetch_option_data] raises a
    [RequestException] exactly when the request fails, the status is an error
    code (400 to 599), or the body is not JSON; and a response without error
    status whose JSON object has no [instrumentOptMarketWatch] gives the
    empty list. *)
Theorem fetch_option_data_network_error (net : network) (market : string) (market_num : Z) :
  Py.dict_get MARKETS_NUM market = Some market_num ->
  (raises_network_error (snd (fetch_option_data net market)) <->
   failed_or_error_status_or_not_json (net (market_watch_url market_num)))
  /\ (forall status_code fields,
        net (market_watch_url market_num) = Response status_code (Some (JObj fields)) ->
        ~ (400 <= status_code < 600)%Z ->
        Py.dict_get fields "instrumentOptMarketWatch" = None ->
        snd (fetch_option_data net market) = Return (JArr [])).
Proof.
  intros Hnum. rewrite (fetch_option_data_outcome net _ _ Hnum).
  unfold raises_network_error, failed_or_error_status_or_not_json.
  split.
  - destruct (net (market_watch_url market_num)) as [t|status_code body].
    + split; [tauto|]. intros _. eexists. split; reflexivity.
    + destruct ((400 <=? status_code)%Z && (status_code <? 600)%Z) eqn:Est.
      * apply error_status_dec in Est.
        split; [tauto|]. intros _. eexists. split; reflexivity.
      * assert (Hst : ~ (400 <= status_code < 600)%Z).
        { intro H. apply error_status_dec in H. congruence. }
        destruct body as [j|].
        -- split.
           ++ intros [e [He Hreq]]. exfalso.
              destruct j as [| | | | | |fields]; try (injection He as <-; discriminate Hreq).
              destruct (Py.dict_get_default fields _ _); cbn in He;
                try discriminate He; injection He as <-; discriminate Hreq.
           ++ intros [H|H]; [tauto|discriminate H].
        -- split; [auto|]. intros _. eexists. split; reflexivity.
  - intros status_code fields Hreply Hst Hget. rewrite Hreply.
    destruct ((400 <=? status_code)%Z && (status_code <? 600)%Z) eqn:Est.
    + apply error_status_dec in Est. tauto.
    + unfold Py.dict_get_default. rewrite Hget. reflexivity.
Qed.

Lemma fetch_option_data_network_error_witness :
  (raises_network_error (snd (fetch_option_data net_half "fara_bourse")) <->
   failed_or_error_status_or_not_json (net_half (market_watch_url 2)))
  /\ snd (fetch_option_data (fun _ => Response 200 (Some (JObj []))) "bourse") = Return (JArr []).
Proof.
  split.
  - apply (fetch_option_data_network_error net_half "fara_bourse" 2).
    reflexivity.
  - apply (fetch_option_data_network_error (fun _ => Response 200 (Some (JObj []))) "bourse"
             1 eq_refl) with (status_code := 200%Z) (fields := []).
    + reflexivity.
    + lia.
    + reflexivity.
Defined.

(** C5 as stated fails both ways: a reply with status 304 is not a 2xx yet
    the fetch returns its records, and a reply with status 200 whose body is
    not JSON makes the fetch raise a [RequestException]. *)
Lemma fetch_option_data_not_exactly_2xx :
  ~ (raises_network_error (snd (fetch_option_data net_not_modified "bourse")) <->
     failed_or_not_2xx (net_not_modified (market_watch_url 1)))
  /\ ~ (raises_network_error (snd (fetch_option_data net_garbled "bourse")) <->
        failed_or_not_2xx (net_garbled (market_watch_url 1))).
Proof.
  split.
  - intros [_ H].
    assert (Hno : failed_or_not_2xx (net_not_modified (market_watch_url 1))).
    { cbn. lia. }
    destruct (H Hno) as [e [He _]]. discriminate He.
  - intros [H _].
    assert (Hraise : raises_network_error (snd (fetch_option_data net_garbled "bourse"))).
    { eexists. split; reflexivity. }
    specialize (H Hraise). cbn in H. lia.
Qed.

(** ** The call on the heap *)

Lemma bind_Return {A B : Type} (m : M A) (k : A -> M B) (h h' : heap) (a : A) :
  m h = (Return a, h') -> bind m k h = k a h'.
Proof. intros H. unfold bind. rewrite H. reflexivity. Qed.

Lemma bind_Raise {A B : Type} (m : M A) (k : A -> M B) (h h' : heap) (e : exn) :
  m h = (Raise e, h') -> bind m k h = (Raise e, h').
Proof. intros H. unfold bind. rewrite H. reflexivity. Qed.

Lemma update_app (h fr : heap) (k : nat) (o : obj) :
  update (List.length h + k) o (h ++ fr) = h ++ update k o fr.
Proof.
  induction h as [|x h IH]; cbn.
  - destruct fr; reflexivity.
  - rewrite IH. reflexivity.
Qed.

Lemma nth_error_fresh (h fr : heap) (k : nat) :
  nth_error (h ++ fr) (List.length h + k) = nth_error fr k.
Proof.
  rewrite nth_error_app2 by lia. f_equal. lia.
Qed.

(** The primitives on a heap [h ++ fr], at a location of [fr]. *)

Lemma new_fresh (h fr : heap) (o : obj) :
  new o (h ++ fr) = (Return (List.length h + List.length fr), h ++ (fr ++ [o])).
Proof. unfold new. rewrite length_app, app_assoc. reflexivity. Qed.

Lemma read_frame_fresh (h fr : heap) (k : nat) (f : DataFrame) :
  nth_error fr k = Some (Frame f) ->
  read_frame (List.length h + k) (h ++ fr) = (Return f, h ++ fr).
Proof. intros H. unfold read_frame. rewrite nth_error_fresh, H. reflexivity. Qed.

Lemma write_frame_fresh (h fr : heap) (k : nat) (f : DataFrame) :
  write_frame (List.length h + k) f (h ++ fr) = (Return tt, h ++ update k (Frame f) fr).
Proof. unfold write_frame. rewrite update_app. reflexivity. Qed.

Lemma pd_DataFrame_run (h : heap) (raw_data : loc) (records : list record) :
  nth_error h raw_data = Some (PyList records) ->
  pd_DataFrame raw_data h
  = (Return (List.length h + 0), h ++ [Frame (pd.from_records records)]).
Proof.
  intros H. unfold pd_DataFrame.
  erewrite bind_Return by (unfold read_list; rewrite H; reflexivity).
  unfold new. rewrite Nat.add_0_r. reflexivity.
Qed.

Lemma df_columns_fresh (h fr : heap) (k : nat) (f : DataFrame) :
  nth_error fr k = Some (Frame f) ->
  df_columns (List.length h + k) (h ++ fr) = (Return (columns f), h ++ fr).
Proof.
  intros H. unfold df_columns.
  erewrite bind_Return by (apply read_frame_fresh; exact H). reflexivity.
Qed.

Lemma df_getitem_fresh (h fr : heap) (k : nat) (f f' : DataFrame) (labels : list string) :
  nth_error fr k = Some (Frame f) ->
  pd.getitem f labels = Return f' ->
  df_getitem (List.length h + k) labels (h ++ fr)
  = (Return (List.length h + List.length fr), h ++ (fr ++ [Frame f'])).
Proof.
  intros H Hget. unfold df_getitem.
  erewrite bind_Return by (apply read_frame_fresh; exact H).
  erewrite bind_Return by (unfold lift; rewrite Hget; reflexivity).
  apply new_fresh.
Qed.

Lemma df_getitem_fresh_Raise (h fr : heap) (k : nat) (f : DataFrame) (labels : list string) (e : exn) :
  nth_error fr k = Some (Frame f) ->
  pd.getitem f labels = Raise e ->
  df_getitem (List.length h + k) labels (h ++ fr) = (Raise e, h ++ fr).
Proof.
  intros H Hget. unfold df_getitem.
  erewrite bind_Return by (apply read_frame_fresh; exact H).
  erewrite bind_Raise by (unfold lift; rewrite Hget; reflexivity).
  reflexivity.
Qed.

Lemma set_columns_map (f : DataFrame) (g : string -> string) :
  pd.set_columns f (map g (columns f)) = Return (mkDataFrame (map g (columns f)) (data f)).
Proof. unfold pd.set_columns. rewrite length_map, Nat.eqb_refl. reflexivity. Qed.

Lemma df_set_columns_fresh (h fr : heap) (k : nat) (f : DataFrame) (g : string -> string) :
  nth_error fr k = Some (Frame f) ->
  df_set_columns (List.length h + k) (map g (columns f)) (h ++ fr)
  = (Return tt, h ++ update k (Frame (mkDataFrame (map g (columns f)) (data f))) fr).
Proof.
  intros H. unfold df_set_columns.
  erewrite bind_Return by (apply read_frame_fresh; exact H).
  erewrite bind_Return by (unfold lift; rewrite set_columns_map; reflexivity).
  apply write_frame_fresh.
Qed.

Lemma df_rename_fresh (h fr : heap) (k : nat) (f : DataFrame) (mapper : list (string * string)) :
  nth_error fr k = Some (Frame f) ->
  df_rename (List.length h + k) mapper (h ++ fr)
  = (Return (List.length h + List.length fr), h ++ (fr ++ [Frame (pd.rename f mapper)])).
Proof.
  intros H. unfold df_rename.
  erewrite bind_Return by (apply read_frame_fresh; exact H).
  apply new_fresh.
Qed.

Lemma df_rename_inplace_fresh (h fr : heap) (k : nat) (f : DataFrame) (mapper : list (string * string)) :
  nth_error fr k = Some (Frame f) ->
  df_rename_inplace (List.length h + k) mapper (h ++ fr)
  = (Return tt, h ++ update k (Frame (pd.rename f mapper)) fr).
Proof.
  intros H. unfold df_rename_inplace.
  erewrite bind_Return by (apply read_frame_fresh; exact H).
  apply write_frame_fresh.
Qed.

Lemma df_setitem_fresh (h fr : heap) (k : nat) (f : DataFrame) (label : string) (v : json) :
  nth_error fr k = Some (Frame f) ->
  df_setitem (List.length h + k) label v (h ++ fr)
  = (Return tt, h ++ update k (Frame (pd.setitem f label v)) fr).
Proof.
  intros H. unfold df_setitem.
  erewrite bind_Return by (apply read_frame_fresh; exact H).
  apply write_frame_fresh.
Qed.

Lemma pd_concat_fresh (h fr : heap) (ka kb : nat) (fa fb f : DataFrame) :
  nth_error fr ka = Some (Frame fa) ->
  nth_error fr kb = Some (Frame fb) ->
  pd.concat fa fb = Return f ->
  pd_concat (List.length h + ka) (List.length h + kb) (h ++ fr)
  = (Return (List.length h + List.length fr), h ++ (fr ++ [Frame f])).
Proof.
  intros Ha Hb Hcat. unfold pd_concat.
  erewrite bind_Return by (apply read_frame_fresh; exact Ha).
  erewrite bind_Return by (apply read_frame_fresh; exact Hb).
  erewrite bind_Return by (unfold lift; rewrite Hcat; reflexivity).
  apply new_fresh.
Qed.

Lemma pd_concat_fresh_Raise (h fr : heap) (ka kb : nat) (fa fb : DataFrame) (e : exn) :
  nth_error fr ka = Some (Frame fa) ->
  nth_error fr kb = Some (Frame fb) ->
  pd.concat fa fb = Raise e ->
  pd_concat (List.length h + ka) (List.length h + kb) (h ++ fr) = (Raise e, h ++ fr).
Proof.
  intros Ha Hb Hcat. unfold pd_concat.
  erewrite bind_Return by (apply read_frame_fresh; exact Ha).
  erewrite bind_Return by (apply read_frame_fresh; exact Hb).
  erewrite bind_Raise by (unfold lift; rewrite Hcat; reflexivity).
  reflexivity.
Qed.

Ltac step_with lem :=
  erewrite bind_Return by (eapply lem; try reflexivity; eassumption);
  cbn [app List.length update nth_error].

(** The call on any heap that holds [records] at [raw_data]: the heap grows
    by the frames of the call and nothing else changes; the call returns the
    location of the frame [clean_frame] computes, or raises what it raises. *)
Lemma clean_entire_market_data_run (records : list record) (h : heap) (raw_data : loc) :
  nth_error h raw_data = Some (PyList records) ->
  exists (r : result nat) (fresh : list obj),
    clean_entire_market_data raw_data h
    = (match r with Return k => Return (List.length h + k) | Raise e => Raise e end, h ++ fresh)
    /\ match r with
       | Return k => exists df, nth_error fresh k = Some (Frame df) /\ clean_frame records = Return df
       | Raise e => clean_frame records = Raise e
       end.
Proof.
  intros Hraw. unfold clean_entire_market_data, clean_frame.
  set (df := pd.from_records records).
  erewrite bind_Return by (apply pd_DataFrame_run; exact Hraw).
  step_with df_columns_fresh.
  fold (general_labels (columns df)). fold (specific_stems (columns df)).
  fold (leg_labels "_C" (columns df)). fold (leg_labels "_P" (columns df)).
  destruct (pd.getitem df (leg_labels "_C" (columns df))) as [picked_calls|e] eqn:Ecalls.
  2:{ erewrite bind_Raise by (eapply df_getitem_fresh_Raise; [reflexivity|exact Ecalls]).
      exists (Raise e), [Frame df]. split; reflexivity. }
  step_with df_getitem_fresh.
  step_with df_columns_fresh.
  step_with df_set_columns_fresh.
  step_with df_rename_fresh.
  step_with df_setitem_fresh.
  fold (leg_frame "_C" "call" picked_calls).
  destruct (pd.getitem df (leg_labels "_P" (columns df))) as [picked_puts|e] eqn:Eputs.
  2:{ erewrite bind_Raise by (eapply df_getitem_fresh_Raise; [reflexivity|exact Eputs]).
      exists (Raise e). eexists. split; reflexivity. }
  step_with df_getitem_fresh.
  step_with df_columns_fresh.
  step_with df_set_columns_fresh.
  step_with df_rename_fresh.
  step_with df_setitem_fresh.
  fold (leg_frame "_P" "put" picked_puts).
  destruct (pd.concat (leg_frame "_C" "call" picked_calls) (leg_frame "_P" "put" picked_puts))
    as [result_df|e] eqn:Econcat.
  2:{ erewrite bind_Raise by (eapply pd_concat_fresh_Raise; [reflexivity|reflexivity|exact Econcat]).
      exists (Raise e). eexists. split; reflexivity. }
  step_with pd_concat_fresh.
  step_with df_rename_inplace_fresh.
  exists (Return 5). eexists. split; [reflexivity|].
  eexists. split; reflexivity.
Qed.

Lemma table_fresh (h fresh ext : heap) (r : result nat) (t : result DataFrame) :
  match r with
  | Return k => exists df, nth_error fresh k = Some (Frame df) /\ t = Return df
  | Raise e => t = Raise e
  end ->
  table (h ++ fresh ++ ext)
        (match r with Return k => Return (List.length h + k) | Raise e => Raise e end)
  = Some t.
Proof.
  destruct r as [k|e]; cbn [table].
  - intros [df [Hk ->]]. rewrite nth_error_fresh.
    rewrite nth_error_app1 by (apply nth_error_Some; congruence).
    rewrite Hk. reflexivity.
  - intros ->. reflexivity.
Qed.

(** The call on the heap refines [clean_frame]. *)
Lemma reshape_clean_frame (records : list record) :
  reshape records = Some (clean_frame records).
Proof.
  unfold reshape.
  destruct (clean_entire_market_data_run records [PyList records] 0 eq_refl)
    as [r [fresh [Hrun Hr]]].
  rewrite Hrun. rewrite <- (app_nil_r fresh).
  apply (table_fresh [PyList records] fresh [] r).
  destruct r; [destruct Hr as [df [? ?]]; eauto|auto].
Qed.

(** On any heap the call leaves the table [reshape] gives. *)
Lemma clean_entire_market_data_reshape (h : heap) (raw_data : loc) (records : list record) :
  nth_error h raw_data = Some (PyList records) ->
  table (snd (clean_entire_market_data raw_data h)) (fst (clean_entire_market_data raw_data h))
  = reshape records.
Proof.
  intros Hraw. rewrite reshape_clean_frame.
  destruct (clean_entire_market_data_run records h raw_data Hraw) as [r [fresh [Hrun Hr]]].
  rewrite Hrun. cbn [fst snd]. rewrite <- (app_nil_r fresh). apply table_fresh.
  destruct r; [destruct Hr as [df [? ?]]; eauto|auto].
Qed.

(** C9: two calls in a row on the same list leave the same table: both raise
    the same exception, or both return a frame with the same labels and the
    same rows. *)
Theorem clean_entire_market_data_deterministic
  (h : heap) (raw_data : loc) (records : list record) :
  nth_error h raw_data = Some (PyList records) ->
  let first := clean_entire_market_data raw_data h in
  let second := clean_entire_market_data raw_data (snd first) in
  exists t : result DataFrame,
    table (snd second) (fst first) = Some t /\
    table (snd second) (fst second) = Some t.
Proof.
  intros Hraw first second. exists (clean_frame records).
  destruct (clean_entire_market_data_run records h raw_data Hraw) as [r1 [fresh1 [Hrun1 Hr1]]].
  assert (Hraw' : nth_error (h ++ fresh1) raw_data = Some (PyList records)).
  { rewrite nth_error_app1 by (apply nth_error_Some; congruence). exact Hraw. }
  destruct (clean_entire_market_data_run records (h ++ fresh1) raw_data Hraw')
    as [r2 [fresh2 [Hrun2 Hr2]]].
  subst first second. rewrite Hrun1. cbn [fst snd]. rewrite Hrun2. cbn [fst snd].
  split.
  - rewrite <- app_assoc. apply table_fresh.
    destruct r1; [destruct Hr1 as [df [? ?]]; eauto|auto].
  - rewrite <- (app_nil_r fresh2). apply table_fresh.
    destruct r2; [destruct Hr2 as [df [? ?]]; eauto|auto].
Qed.

Lemma clean_entire_market_data_deterministic_witness :
  let first := clean_entire_market_data 0 [PyList [synthetic_record]] in
  let second := clean_entire_market_data 0 (snd first) in
  exists t : result DataFrame,
    table (snd second) (fst first) = Some t /\
    table (snd second) (fst second) = Some t.
Proof.
  apply (clean_entire_market_data_deterministic [PyList [synthetic_record]] 0
           [synthetic_record]).
  reflexivity.
Defined.

(** C10: the call leaves its input alone: after it the list at [raw_data]
    holds the same records, and every other object that was on the heap is
    as it was. *)
Theorem clean_entire_market_data_keeps_input
  (h : heap) (raw_data l : loc) (records : list record) (o : obj) :
  nth_error h raw_data = Some (PyList records) ->
  nth_error h l = Some o ->
  nth_error (snd (clean_entire_market_data raw_data h)) raw_data = Some (PyList records) /\
  nth_error (snd (clean_entire_market_data raw_data h)) l = Some o.
Proof.
  intros Hraw Hl.
  destruct (clean_entire_market_data_run records h raw_data Hraw) as [r [fresh [Hrun _]]].
  rewrite Hrun. cbn [snd].
  split; (rewrite nth_error_app1 by (apply nth_error_Some; congruence)); assumption.
Qed.

Lemma clean_entire_market_data_keeps_input_witness :
  nth_error (snd (clean_entire_market_data 1 [PyList []; PyList [synthetic_record]])) 1
  = Some (PyList [synthetic_record]) /\
  nth_error (snd (clean_entire_market_data 1 [PyList []; PyList [synthetic_record]])) 0
  = Some (PyList []).
Proof.
  apply (clean_entire_market_data_keeps_input [PyList []; PyList [synthetic_record]] 1 0
           [synthetic_record] (PyList [])); reflexivity.
Defined.

(** ** Reshaping: the two fixed inputs *)

(** C7: on the empty list the call returns a frame with no row. *)
Theorem clean_entire_market_data_empty :
  reshape [] = Some (Return (mkDataFrame ["option_type"] [])).
Proof. vm_compute. reflexivity. Qed.

(** The rows of the synthetic record, with its keys in the order written. *)
Lemma reshape_synthetic :
  rows_of (reshape [synthetic_record])
  = [ [ ("ua_tse_code", Cell (JStr "X")); ("tse_code", Cell (JStr "c1"));
        ("close_price", Cell (JInt 100)); ("option_type", Cell (JStr "call")) ];
      [ ("ua_tse_code", Cell (JStr "X")); ("tse_code", Cell (JStr "p1"));
        ("close_price", Cell (JInt 50)); ("option_type", Cell (JStr "put")) ] ].
Proof. vm_compute. reflexivity. Qed.

(** ** Strings and lists *)

Lemma endswith_app (a suffix : string) : Py.endswith (a ++ suffix) suffix = true.
Proof.
  induction a as [|c a IH]; cbn [append Py.endswith].
  - destruct suffix; cbn [Py.endswith]; rewrite String.eqb_refl; reflexivity.
  - rewrite IH. apply orb_true_r.
Qed.

Lemma length_append (a b : string) :
  String.length (a ++ b) = String.length a + String.length b.
Proof. induction a as [|c a IH]; cbn; [reflexivity|]. rewrite IH. reflexivity. Qed.

Lemma removesuffix_app (a suffix : string) : removesuffix (a ++ suffix) suffix = a.
Proof.
  induction a as [|c a IH]; cbn [append removesuffix].
  - destruct suffix; cbn [removesuffix]; rewrite String.eqb_refl; reflexivity.
  - destruct (String c (a ++ suffix) =? suffix) eqn:E.
    + apply String.eqb_eq in E. apply (f_equal String.length) in E.
      cbn in E. rewrite length_append in E. lia.
    + rewrite IH. reflexivity.
Qed.

Lemma endswith_removesuffix (s suffix : string) :
  Py.endswith s suffix = true -> (removesuffix s suffix ++ suffix)%string = s.
Proof.
  induction s as [|c s IH]; cbn [Py.endswith removesuffix].
  - destruct (EmptyString =? suffix) eqn:E; [|discriminate].
    apply String.eqb_eq in E. subst. reflexivity.
  - destruct (String c s =? suffix) eqn:E.
    + apply String.eqb_eq in E. subst. reflexivity.
    + cbn [orb append]. intros H. rewrite (IH H). reflexivity.
Qed.

Lemma append_suffix_inj (a b suffix : string) :
  (a ++ suffix)%string = (b ++ suffix)%string -> a = b.
Proof.
  intros H. rewrite <- (removesuffix_app a suffix), <- (removesuffix_app b suffix), H.
  reflexivity.
Qed.

Lemma mem_In (x : string) (l : list string) : Py.mem x l = true <-> In x l.
Proof.
  unfold Py.mem. rewrite existsb_exists. split.
  - intros [y [Hy E]]. apply String.eqb_eq in E. subst. exact Hy.
  - intros H. exists x. split; [exact H|apply String.eqb_refl].
Qed.

Lemma mem_not_In (x : string) (l : list string) : Py.mem x l = false <-> ~ In x l.
Proof.
  rewrite <- mem_In. destruct (Py.mem x l); split; congruence.
Qed.

Lemma distinct_NoDup (l : list string) : pd.distinct l = true -> NoDup l.
Proof.
  induction l as [|x l IH]; cbn [pd.distinct]; [constructor|].
  rewrite andb_true_iff, negb_true_iff, mem_not_In. intros [Hx Hl].
  constructor; auto.
Qed.

Lemma same_labels_refl (l : list string) : pd.same_labels l l = true.
Proof.
  induction l as [|x l IH]; cbn [pd.same_labels]; [reflexivity|].
  rewrite String.eqb_refl, IH. reflexivity.
Qed.

Section Lists.
Context {A B C : Type}.

Lemma filter_Permutation (p : A -> bool) (l l' : list A) :
  Permutation l l' -> Permutation (filter p l) (filter p l').
Proof.
  induction 1 as [|x l l' _ IH|x y l|l l' l'' _ IH1 _ IH2]; cbn [filter].
  - constructor.
  - destruct (p x); [constructor|]; exact IH.
  - destruct (p x), (p y); try reflexivity. constructor.
  - etransitivity; eassumption.
Qed.

Lemma filter_map_fst (p : A -> bool) (l : list (A * B)) :
  filter p (map fst l) = map fst (filter (fun kv => p (fst kv)) l).
Proof.
  induction l as [|kv l IH]; cbn [map filter]; [reflexivity|].
  destruct (p (fst kv)); cbn [map]; rewrite IH; reflexivity.
Qed.

Lemma combine_map_same (f : A -> B) (g : A -> C) (l : list A) :
  combine (map f l) (map g l) = map (fun x => (f x, g x)) l.
Proof. induction l as [|x l IH]; cbn; [reflexivity|]. rewrite IH. reflexivity. Qed.

Lemma combine_app_same (l1 l2 : list A) (m1 m2 : list B) :
  List.length l1 = List.length m1 ->
  combine (l1 ++ l2) (m1 ++ m2) = combine l1 m1 ++ combine l2 m2.
Proof.
  revert m1. induction l1 as [|x l1 IH]; intros [|y m1] H; cbn in *; try discriminate.
  - reflexivity.
  - rewrite IH by congruence. reflexivity.
Qed.

Lemma map_fst_combine (l : list A) (m : list B) :
  List.length l = List.length m -> map fst (combine l m) = l.
Proof.
  revert m. induction l as [|x l IH]; intros [|y m] H; cbn in *; try discriminate.
  - reflexivity.
  - rewrite IH by congruence. reflexivity.
Qed.


Lemma map_id_in (f : A -> A) (l : list A) :
  (forall x, In x l -> f x = x) -> map f l = l.
Proof.
  intros H. rewrite <- (map_id l) at 2. apply map_ext_in. exact H.
Qed.

Lemma NoDup_map_in (f : A -> B) (l : list A) :
  (forall x y, In x l -> In y l -> f x = f y -> x = y) -> NoDup l -> NoDup (map f l).
Proof.
  intros Hinj H. induction H as [|x l Hx _ IH]; cbn [map]; constructor.
  - rewrite in_map_iff. intros [y [E Hy]].
    apply Hinj in E; [|right; exact Hy|left; reflexivity]. subst. contradiction.
  - apply IH. intros a b Ha Hb. apply Hinj; right; assumption.
Qed.
End Lists.

(** The cell of a present key is its value. *)
Lemma dict_get_In {V : Type} (d : list (string * V)) (k : string) (v : V) :
  NoDup (Py.keys d) -> In (k, v) d -> Py.dict_get d k = Some v.
Proof.
  unfold Py.keys. induction d as [|[k' v'] d IH]; cbn [map fst Py.dict_get In]; [tauto|].
  intros Hnd [E|Hin].
  - injection E as -> ->. rewrite String.eqb_refl. reflexivity.
  - inversion Hnd as [|? ? Hk' Hd]; subst.
    destruct (k' =? k) eqn:E.
    + apply String.eqb_eq in E. subst. exfalso. apply Hk'.
      apply in_map_iff. exists (k, v). auto.
    + apply IH; assumption.
Qed.

Lemma cell_of_In (r : record) (k : string) (v : json) :
  NoDup (Py.keys r) -> In (k, v) r -> pd.cell_of r k = Cell v.
Proof. intros Hnd Hin. unfold pd.cell_of. rewrite (dict_get_In r k v Hnd Hin). reflexivity. Qed.

(** The dict of a record read key by key. *)
Lemma map_keys_cells (F : string -> string) (p : string -> bool) (r : record) :
  NoDup (Py.keys r) ->
  map (fun k => (F k, pd.cell_of r k)) (filter p (Py.keys r))
  = map (fun kv => (F (fst kv), Cell (snd kv))) (filter (fun kv => p (fst kv)) r).
Proof.
  intros Hnd. unfold Py.keys. rewrite filter_map_fst, map_map.
  apply map_ext_in. intros [k v] Hin. apply filter_In in Hin. destruct Hin as [Hin _].
  cbn [fst snd]. rewrite (cell_of_In r k v Hnd Hin). reflexivity.
Qed.

(** ** The frames of a well-shaped input *)

Lemma nth_index_of {X : Type} (f : string -> X) (d : X) (label : string) (cols : list string) :
  In label cols -> nth (pd.index_of label cols) (map f cols) d = f label.
Proof.
  induction cols as [|c cols IH]; cbn [In pd.index_of map]; [tauto|].
  intros H. destruct (c =? label) eqn:E.
  - apply String.eqb_eq in E. subst. reflexivity.
  - cbn [nth]. apply IH. destruct H as [H|H]; [|exact H].
    apply String.eqb_neq in E. congruence.
Qed.

Lemma getitem_from_records (records : list record) (labels : list string) :
  incl labels (pd.union_keys records) ->
  pd.getitem (pd.from_records records) labels
  = Return (mkDataFrame labels (map (fun r => map (pd.cell_of r) labels) records)).
Proof.
  intros Hincl. unfold pd.getitem, pd.from_records. cbn [columns data].
  replace (filter (fun label => negb (Py.mem label (pd.union_keys records))) labels)
    with (@nil string).
  - rewrite map_map. do 2 f_equal. apply map_ext. intros r.
    rewrite <- (map_id labels) at 1. rewrite map_map.
    apply map_ext_in. intros label Hin.
    rewrite nth_index_of by (apply Hincl; exact Hin). reflexivity.
  - symmetry. induction labels as [|x labels IH]; [reflexivity|].
    cbn [filter]. assert (Hx : Py.mem x (pd.union_keys records) = true).
    { apply mem_In, Hincl. left. reflexivity. }
    rewrite Hx. cbn [negb]. apply IH. intros y Hy. apply Hincl. right. exact Hy.
Qed.

Section Shaped.
Variable cols : list string.
Hypothesis Hshape : Shape cols.

Let call_cols : list string := filter (fun c => Py.endswith c "_C") cols.

Lemma leg_labels_call : leg_labels "_C" cols = general_labels cols ++ call_cols.
Proof.
  unfold leg_labels, specific_stems. f_equal. rewrite map_map.
  apply map_id_in. intros c Hc. apply filter_In in Hc. destruct Hc as [Hin Hend].
  apply (shape_call Hshape c Hin Hend).
Qed.

Lemma leg_labels_put :
  leg_labels "_P" cols
  = general_labels cols ++ map (fun c => (Py.replace c "_C" "" ++ "_P")%string) call_cols.
Proof. unfold leg_labels, specific_stems. rewrite map_map. reflexivity. Qed.

Lemma leg_labels_incl (suffix : string) :
  suffix = "_C" \/ suffix = "_P" -> incl (leg_labels suffix cols) cols.
Proof.
  intros [-> | ->]; [rewrite leg_labels_call|rewrite leg_labels_put];
    intros x Hx; apply in_app_or in Hx; destruct Hx as [Hx|Hx].
  - apply filter_In in Hx. tauto.
  - apply filter_In in Hx. tauto.
  - apply filter_In in Hx. tauto.
  - apply in_map_iff in Hx. destruct Hx as [c [<- Hc]].
    apply filter_In in Hc. destruct Hc as [Hin Hend].
    apply (shape_call Hshape c Hin Hend).
Qed.

(** The labels of both legs before the tag and the last renaming. *)
Let leg_names : list string :=
  general_labels cols
  ++ map (fun c => renamed SPECIFIC_COLUMN_NAMES (Py.replace c "_C" "")) call_cols.

Lemma call_names :
  map (fun c => Py.dict_get_default SPECIFIC_COLUMN_NAMES c c)
      (map (fun col => Py.replace col "_C" "") (leg_labels "_C" cols))
  = leg_names.
Proof.
  rewrite leg_labels_call. unfold leg_names. rewrite !map_app, !map_map. f_equal.
  apply map_id_in. intros g Hg. apply filter_In in Hg. destruct Hg as [Hin Hgen].
  destruct (shape_general Hshape g Hin Hgen) as [-> [_ Hren]]. exact Hren.
Qed.

Lemma put_names :
  map (fun c => Py.dict_get_default SPECIFIC_COLUMN_NAMES c c)
      (map (fun col => Py.replace col "_P" "") (leg_labels "_P" cols))
  = leg_names.
Proof.
  rewrite leg_labels_put. unfold leg_names. rewrite !map_app, !map_map. f_equal.
  - apply map_id_in. intros g Hg. apply filter_In in Hg. destruct Hg as [Hin Hgen].
    destruct (shape_general Hshape g Hin Hgen) as [_ [-> Hren]]. exact Hren.
  - apply map_ext_in. intros c Hc. apply filter_In in Hc. destruct Hc as [Hin Hend].
    destruct (shape_call Hshape c Hin Hend) as [_ [_ [-> _]]]. reflexivity.
Qed.

Lemma final_names :
  map (fun c => Py.dict_get_default GENERAL_COLUMN_NAMES c c) (leg_names ++ ["option_type"])
  = final_labels cols.
Proof.
  unfold leg_names, final_labels. rewrite !map_app, !map_map, <- app_assoc. f_equal. f_equal.
  apply map_ext_in. intros c Hc. apply filter_In in Hc. destruct Hc as [Hin Hend].
  apply (shape_call Hshape c Hin Hend).
Qed.

Lemma tag_not_in_leg_names : Py.mem "option_type" leg_names = false.
Proof.
  apply mem_not_In. intros Hin.
  pose proof (shape_labels Hshape) as Hnd. unfold final_labels in Hnd.
  rewrite app_assoc in Hnd. apply NoDup_remove_2 in Hnd. apply Hnd.
  rewrite app_nil_r. unfold leg_names in Hin.
  apply in_app_or in Hin. apply in_or_app. destruct Hin as [Hin|Hin]; [left|right; exact Hin].
  apply in_map_iff. exists "option_type". split; [reflexivity|exact Hin].
Qed.
End Shaped.

(** The frame of a call whose raw labels have the shape: the final labels,
    the call rows in the order of the records, then the put rows. *)
Lemma clean_frame_shaped (records : list record) :
  Shape (pd.union_keys records) ->
  clean_frame records
  = Return (mkDataFrame (final_labels (pd.union_keys records))
              (map (leg_cells "_C" "call" (pd.union_keys records)) records
               ++ map (leg_cells "_P" "put" (pd.union_keys records)) records)).
Proof.
  intros Hs. unfold clean_frame.
  change (columns (pd.from_records records)) with (pd.union_keys records).
  rewrite !getitem_from_records by (apply leg_labels_incl; auto).
  unfold leg_frame, pd.rename, pd.setitem. cbn [columns data].
  rewrite (call_names _ Hs), (put_names _ Hs), (tag_not_in_leg_names _ Hs).
  unfold pd.concat. cbn [columns data]. rewrite same_labels_refl.
  unfold pd.rename. cbn [columns data]. rewrite (final_names _ Hs).
  rewrite !map_map. reflexivity.
Qed.

(** ** The rows against the specification *)

Section ShapedRows.
Variable cols : list string.
Hypothesis Hshape : Shape cols.

Let call_cols : list string := filter (fun c => Py.endswith c "_C") cols.
Let put_cols : list string := filter (fun c => Py.endswith c "_P") cols.

Lemma stem_removesuffix (c : string) :
  In c call_cols -> Py.replace c "_C" "" = removesuffix c "_C".
Proof.
  intros Hc. apply filter_In in Hc. destruct Hc as [Hin Hend].
  destruct (shape_call Hshape c Hin Hend) as [Hstem _].
  rewrite <- Hstem at 2. rewrite removesuffix_app. reflexivity.
Qed.

(** The put labels are the call labels with the other suffix. *)
Lemma put_cols_Permutation :
  Permutation (map (fun c => (Py.replace c "_C" "" ++ "_P")%string) call_cols) put_cols.
Proof.
  apply NoDup_Permutation.
  - apply NoDup_map_in.
    + intros x y Hx Hy E. apply append_suffix_inj in E.
      apply filter_In in Hx. apply filter_In in Hy.
      destruct Hx as [Hx Hxe]. destruct Hy as [Hy Hye].
      destruct (shape_call Hshape x Hx Hxe) as [<- _].
      destruct (shape_call Hshape y Hy Hye) as [<- _].
      rewrite E. reflexivity.
    + apply NoDup_filter, (shape_distinct Hshape).
  - apply NoDup_filter, (shape_distinct Hshape).
  - intros p. split.
    + intros Hp. apply in_map_iff in Hp. destruct Hp as [c [<- Hc]].
      apply filter_In in Hc. destruct Hc as [Hin Hend].
      apply filter_In. split; [|apply endswith_app].
      apply (shape_call Hshape c Hin Hend).
    + intros Hp. apply filter_In in Hp. destruct Hp as [Hin Hend].
      pose proof (shape_put Hshape p Hin Hend) as Hc.
      apply in_map_iff. exists (removesuffix p "_P" ++ "_C")%string.
      assert (Hcc : In (removesuffix p "_P" ++ "_C")%string call_cols).
      { apply filter_In. split; [exact Hc|apply endswith_app]. }
      split; [|exact Hcc].
      rewrite (stem_removesuffix _ Hcc), removesuffix_app.
      apply endswith_removesuffix. exact Hend.
Qed.

Variable r : record.
Hypothesis Hkeys : Permutation (Py.keys r) cols.

Lemma keys_NoDup : NoDup (Py.keys r).
Proof.
  apply (Permutation_NoDup (l := cols)); [symmetry; exact Hkeys|].
  apply (shape_distinct Hshape).
Qed.

(** The cells under [p], label by label, against the fields of [r]. *)
Lemma fields_Permutation (F : string -> string) (p : string -> bool) :
  Permutation
    (map (fun k => (F k, pd.cell_of r k)) (filter p cols))
    (map (fun kv => (F (fst kv), Cell (snd kv))) (filter (fun kv => p (fst kv)) r)).
Proof.
  rewrite <- (map_keys_cells F p r keys_NoDup).
  apply Permutation_map, filter_Permutation. symmetry. exact Hkeys.
Qed.

Lemma call_row_spec :
  Permutation (combine (final_labels cols) (leg_cells "_C" "call" cols r)) (spec_call_leg r).
Proof.
  unfold final_labels, leg_cells. rewrite (leg_labels_call _ Hshape), map_app, <- app_assoc.
  rewrite combine_app_same by (rewrite !length_map; reflexivity).
  rewrite combine_app_same by (rewrite !length_map; reflexivity).
  rewrite !combine_map_same. cbn [combine].
  unfold spec_call_leg, spec_leg.
  apply Permutation_app; [apply fields_Permutation|].
  apply Permutation_app; [|reflexivity].
  etransitivity;
    [|apply (fields_Permutation
               (fun k => renamed SPECIFIC_COLUMN_NAMES (removesuffix k "_C"))
               (fun c => Py.endswith c "_C"))].
  erewrite map_ext_in; [reflexivity|].
  intros c Hc. cbv beta. rewrite (stem_removesuffix c Hc). reflexivity.
Qed.

Lemma put_row_spec :
  Permutation (combine (final_labels cols) (leg_cells "_P" "put" cols r)) (spec_put_leg r).
Proof.
  unfold final_labels, leg_cells. rewrite (leg_labels_put cols), map_app, <- app_assoc.
  rewrite combine_app_same by (rewrite !length_map; reflexivity).
  rewrite combine_app_same by (rewrite !length_map; reflexivity).
  rewrite map_map, !combine_map_same. cbn [combine].
  unfold spec_put_leg, spec_leg.
  apply Permutation_app; [apply fields_Permutation|].
  apply Permutation_app; [|reflexivity].
  etransitivity;
    [|apply (fields_Permutation
               (fun k => renamed SPECIFIC_COLUMN_NAMES (removesuffix k "_P"))
               (fun c => Py.endswith c "_P"))].
  transitivity
    (map (fun p => (renamed SPECIFIC_COLUMN_NAMES (removesuffix p "_P"), pd.cell_of r p))
         (map (fun c => (Py.replace c "_C" "" ++ "_P")%string) call_cols)).
  - rewrite map_map. erewrite map_ext; [reflexivity|].
    intros c. cbv beta. rewrite removesuffix_app. reflexivity.
  - apply Permutation_map, put_cols_Permutation.
Qed.
End ShapedRows.

(** ** Shapes *)

Lemma final_labels_Permutation (a b : list string) :
  Permutation a b -> Permutation (final_labels a) (final_labels b).
Proof.
  intros H. unfold final_labels.
  repeat apply Permutation_app; try reflexivity;
    apply Permutation_map, filter_Permutation, H.
Qed.

(** The shape is a matter of which labels there are, not of their order. *)
Lemma Shape_Permutation (a b : list string) :
  Permutation a b -> Shape a -> Shape b.
Proof.
  intros H Ha.
  assert (Hin : forall x, In x b -> In x a).
  { intros x. apply Permutation_in. symmetry. exact H. }
  assert (Hout : forall x, In x a -> In x b).
  { intros x. apply Permutation_in. exact H. }
  constructor.
  - apply (Permutation_NoDup H), (shape_distinct Ha).
  - intros g Hg. apply (shape_general Ha), Hin, Hg.
  - intros c Hc Hend.
    destruct (shape_call Ha c (Hin c Hc) Hend) as [H1 [H2 [H3 H4]]]. auto.
  - intros p Hp Hend. apply Hout, (shape_put Ha p (Hin p Hp) Hend).
  - apply (Permutation_NoDup (final_labels_Permutation a b H)), (shape_labels Ha).
Qed.

Ltac shape_by_cases :=
  constructor;
  [ apply distinct_NoDup; vm_compute; reflexivity
  | intros g Hg Hgen; cbn [In] in Hg;
    repeat (destruct Hg as [<-|Hg];
            [first [discriminate Hgen | repeat split; reflexivity]|]);
    contradiction
  | intros c Hc Hend; cbn [In] in Hc;
    repeat (destruct Hc as [<-|Hc];
            [first [discriminate Hend
                   | repeat split; try reflexivity; apply mem_In; vm_compute; reflexivity]|]);
    contradiction
  | intros p Hp Hend; cbn [In] in Hp;
    repeat (destruct Hp as [<-|Hp];
            [first [discriminate Hend | apply mem_In; vm_compute; reflexivity]|]);
    contradiction
  | apply distinct_NoDup; vm_compute; reflexivity ].

(** The fields of [OptionData] have the shape. *)
Lemma Shape_OptionData : Shape OptionData_fields.
Proof. unfold OptionData_fields. shape_by_cases. Qed.

(** So have the fields of the synthetic record. *)
Lemma Shape_synthetic : Shape (Py.keys synthetic_record).
Proof.
  change (Py.keys synthetic_record)
    with ["uaInsCode"; "insCode_C"; "pClosing_C"; "insCode_P"; "pClosing_P"].
  shape_by_cases.
Qed.

(** ** The labels of the raw frame *)

Lemma unique_from_seen (seen l : list string) :
  (forall x, In x l -> In x seen) -> pd.unique_from seen l = [].
Proof.
  induction l as [|x l IH]; cbn [pd.unique_from]; [reflexivity|].
  intros H. assert (Hx : Py.mem x seen = true) by (apply mem_In, H; left; reflexivity).
  rewrite Hx. apply IH. intros y Hy. apply H. right. exact Hy.
Qed.

Lemma unique_from_app (a : list string) :
  forall seen b,
    NoDup a ->
    (forall x, In x a -> ~ In x seen) ->
    (forall x, In x b -> In x seen \/ In x a) ->
    pd.unique_from seen (a ++ b) = a.
Proof.
  induction a as [|x a IH]; intros seen b Hnd Hfresh Hb; cbn [app pd.unique_from].
  - apply unique_from_seen. intros y Hy. destruct (Hb y Hy) as [H|[]]. exact H.
  - assert (Hx : Py.mem x seen = false) by (apply mem_not_In, Hfresh; left; reflexivity).
    rewrite Hx. f_equal. inversion Hnd as [|? ? Hxa Hnda]; subst.
    apply IH.
    + exact Hnda.
    + intros y Hy [E|Hseen].
      * subst. contradiction.
      * apply (Hfresh y); [right; exact Hy|exact Hseen].
    + intros y Hy. destruct (Hb y Hy) as [H|[H|H]].
      * left. right. exact H.
      * left. left. exact H.
      * right. exact H.
Qed.

(** When every record has the keys of the first, the labels of the raw frame
    are the keys of the first record, in its order. *)
Lemma union_keys_first (r : record) (rest : list record) :
  NoDup (Py.keys r) ->
  Forall (fun r' => forall x, In x (Py.keys r') -> In x (Py.keys r)) rest ->
  pd.union_keys (r :: rest) = Py.keys r.
Proof.
  intros Hnd Hrest. unfold pd.union_keys. cbn [map concat].
  apply unique_from_app.
  - exact Hnd.
  - intros x _ [].
  - intros x Hx. right. apply in_concat in Hx. destruct Hx as [ks [Hks Hx]].
    apply in_map_iff in Hks. destruct Hks as [r' [<- Hr']].
    rewrite Forall_forall in Hrest. apply (Hrest r' Hr'). exact Hx.
Qed.

Lemma union_keys_schema (schema : list string) (r : record) (rest : list record) :
  NoDup schema ->
  Forall (fun r' => Permutation (Py.keys r') schema) (r :: rest) ->
  pd.union_keys (r :: rest) = Py.keys r.
Proof.
  intros Hnd Hall. inversion Hall as [|? ? Hr Hrest]; subst.
  apply union_keys_first.
  - apply (Permutation_NoDup (l := schema)); [symmetry; exact Hr|exact Hnd].
  - apply (Forall_impl _ (P := fun r' => Permutation (Py.keys r') schema)); [|exact Hrest].
    intros r' Hr' x Hx. apply (Permutation_in (l := schema)); [symmetry; exact Hr|].
    apply (Permutation_in (l := Py.keys r')); assumption.
Qed.

Lemma leg_cells_length (suffix tag : string) (cols : list string) (r : record) :
  List.length (final_labels cols) = List.length (leg_cells suffix tag cols r).
Proof.
  unfold final_labels, leg_cells, leg_labels, specific_stems.
  rewrite !length_app, !length_map, !length_app, !length_map.
  unfold general_labels. cbn [List.length].
  change (fun col => negb (Py.endswith col "_P" || Py.endswith col "_C")) with is_general.
  lia.
Qed.

(** ** Reshaping a well-shaped input *)

(** For records whose keys are those of a schema with the shape: the call
    returns a frame, its rows are the call rows in the order of the records
    and then the put rows, each the row of the specification up to the order
    of its labels, and no label occurs twice in a row. *)
Lemma reshape_schema (schema : list string) (records : list record) :
  Shape schema ->
  Forall (fun r => Permutation (Py.keys r) schema) records ->
  exists cols,
    NoDup (final_labels cols) /\
    reshape records
    = Some (Return (mkDataFrame (final_labels cols)
                      (map (leg_cells "_C" "call" cols) records
                       ++ map (leg_cells "_P" "put" cols) records))) /\
    Forall (fun r =>
              Permutation (combine (final_labels cols) (leg_cells "_C" "call" cols r))
                          (spec_call_leg r) /\
              Permutation (combine (final_labels cols) (leg_cells "_P" "put" cols r))
                          (spec_put_leg r)) records.
Proof.
  intros Hschema Hall. rewrite reshape_clean_frame.
  exists (pd.union_keys records).
  assert (Hs : Shape (pd.union_keys records) /\
               Forall (fun r => Permutation (Py.keys r) (pd.union_keys records)) records).
  { destruct records as [|r rest].
    - split; [|constructor]. constructor; cbn; try tauto; repeat constructor; cbn; tauto.
    - rewrite (union_keys_schema schema r rest (shape_distinct Hschema) Hall).
      inversion Hall as [|? ? Hr Hrest]; subst.
      split.
      + apply (Shape_Permutation schema); [symmetry; exact Hr|exact Hschema].
      + apply (Forall_impl _ (P := fun r' => Permutation (Py.keys r') schema)); [|exact Hall].
        intros r' Hr'. etransitivity; [exact Hr'|symmetry; exact Hr]. }
  destruct Hs as [Hs Hkeys].
  split; [apply (shape_labels Hs)|].
  split; [f_equal; apply clean_frame_shaped; exact Hs|].
  apply (Forall_impl _ (P := fun r => Permutation (Py.keys r) (pd.union_keys records)));
    [|exact Hkeys].
  intros r Hr. split.
  - apply call_row_spec; assumption.
  - apply put_row_spec; assumption.
Qed.

Lemma follows_shape_schema (records : list record) :
  Forall follows_shape records ->
  Forall (fun r => Permutation (Py.keys r) OptionData_fields) records.
Proof. intros H. exact H. Qed.


Lemma sample_follows_shape : follows_shape sample_record.
Proof. exact (Permutation_refl OptionData_fields). Qed.

Lemma sample_rev_follows_shape : follows_shape (rev sample_record).
Proof.
  unfold follows_shape.
  change (Py.keys (rev sample_record)) with (rev OptionData_fields).
  apply Permutation_sym, Permutation_rev.
Qed.


(** ** The synthetic record *)

Lemma spec_leg_Permutation (suffix tag : string) (r r' : record) :
  Permutation r r' -> Permutation (spec_leg suffix tag r) (spec_leg suffix tag r').
Proof.
  intros H. unfold spec_leg.
  repeat apply Permutation_app; try reflexivity;
    apply Permutation_map, filter_Permutation, H.
Qed.

(** C2: the synthetic record, with its five fields in any order, gives exactly
    two rows: the first holds [option_type = call], [tse_code = c1],
    [close_price = 100] and [ua_tse_code = X], the second [option_type = put],
    [tse_code = p1], [close_price = 50] and [ua_tse_code = X], and neither
    holds anything else. *)
Theorem clean_entire_market_data_synthetic (r : record) :
  Permutation r synthetic_record ->
  exists call_row put_row,
    rows_of (reshape [r]) = [call_row; put_row] /\
    Permutation call_row
      [ ("ua_tse_code", Cell (JStr "X")); ("tse_code", Cell (JStr "c1"));
        ("close_price", Cell (JInt 100)); ("option_type", Cell (JStr "call")) ] /\
    Permutation put_row
      [ ("ua_tse_code", Cell (JStr "X")); ("tse_code", Cell (JStr "p1"));
        ("close_price", Cell (JInt 50)); ("option_type", Cell (JStr "put")) ].
Proof.
  intros Hr.
  assert (Hall : Forall (fun r => Permutation (Py.keys r) (Py.keys synthetic_record)) [r]).
  { apply Forall_cons; [|apply Forall_nil]. apply Permutation_map. exact Hr. }
  destruct (reshape_schema (Py.keys synthetic_record) [r] Shape_synthetic Hall)
    as [cols [_ [Hdf Hrows]]].
  rewrite Hdf. cbn [rows_of pd.to_dict_records columns data map app].
  inversion Hrows as [|? ? [Hcall Hput] _]; subst.
  do 2 eexists. split; [reflexivity|]. split.
  - etransitivity; [exact Hcall|].
    apply (spec_leg_Permutation "_C" "call" r synthetic_record Hr).
  - etransitivity; [exact Hput|].
    apply (spec_leg_Permutation "_P" "put" r synthetic_record Hr).
Qed.

Lemma clean_entire_market_data_synthetic_witness :
  exists call_row put_row,
    rows_of (reshape [rev synthetic_record]) = [call_row; put_row] /\
    Permutation call_row
      [ ("ua_tse_code", Cell (JStr "X")); ("tse_code", Cell (JStr "c1"));
        ("close_price", Cell (JInt 100)); ("option_type", Cell (JStr "call")) ] /\
    Permutation put_row
      [ ("ua_tse_code", Cell (JStr "X")); ("tse_code", Cell (JStr "p1"));
        ("close_price", Cell (JInt 50)); ("option_type", Cell (JStr "put")) ].
Proof.
  apply (clean_entire_market_data_synthetic (rev synthetic_record)).
  apply Permutation_sym, Permutation_rev.
Defined.

(** ** Where the values of a record go *)

Lemma spec_leg_general (suffix tag : string) (r : record) (k : string) (v : json) :
  In (k, v) r -> is_general k = true ->
  In (renamed GENERAL_COLUMN_NAMES k, Cell v) (spec_leg suffix tag r).
Proof.
  intros Hin Hgen. unfold spec_leg. apply in_or_app. left.
  apply in_map_iff. exists (k, v). split; [reflexivity|].
  apply filter_In. split; assumption.
Qed.

Lemma spec_leg_specific (suffix tag : string) (r : record) (k : string) (v : json) :
  In (k, v) r -> Py.endswith k suffix = true ->
  In (renamed SPECIFIC_COLUMN_NAMES (removesuffix k suffix), Cell v) (spec_leg suffix tag r).
Proof.
  intros Hin Hend. unfold spec_leg. apply in_or_app. right. apply in_or_app. left.
  apply in_map_iff. exists (k, v). split; [reflexivity|].
  apply filter_In. split; assumption.
Qed.

(** A pair of the specification row is what the row holds under the label. *)
Lemma row_dict_get (cols : list string) (suffix tag : string) (r : record)
      (spec : list (string * cell)) (key : string) (c : cell) :
  NoDup (final_labels cols) ->
  Permutation (combine (final_labels cols) (leg_cells suffix tag cols r)) spec ->
  In (key, c) spec ->
  Py.dict_get (combine (final_labels cols) (leg_cells suffix tag cols r)) key = Some c.
Proof.
  intros Hnd Hperm Hin. apply dict_get_In.
  - unfold Py.keys. rewrite map_fst_combine by apply leg_cells_length. exact Hnd.
  - apply (Permutation_in (l := spec)); [symmetry; exact Hperm|exact Hin].
Qed.

(** The keys of [OptionData] are the fields listed above. *)
Lemma OptionData_keys : Py.keys OptionData = OptionData_fields.
Proof. reflexivity. Qed.

(** The call key and the put key of a stem are declared with one type. *)
Lemma OptionData_twins (c : string) (t : field_type) :
  Py.dict_get OptionData c = Some t ->
  Py.endswith c "_C" = true ->
  Py.dict_get OptionData (removesuffix c "_C" ++ "_P") = Some t.
Proof.
  intros Hget Hend.
  assert (Hin : In c OptionData_fields).
  { rewrite <- OptionData_keys. unfold Py.keys.
    clear Hend. revert Hget. generalize OptionData as l. intros l.
    induction l as [|[k t'] l IH]; cbn [Py.dict_get map fst In]; [discriminate|].
    destruct (k =? c) eqn:E.
    - apply String.eqb_eq in E. auto.
    - intros H. right. apply IH. exact H. }
  unfold OptionData_fields in Hin. cbn [In] in Hin.
  repeat (destruct Hin as [<-|Hin];
          [first [discriminate Hend | vm_compute in Hget |- *; exact Hget]|]).
  destruct Hin.
Qed.

Lemma dict_get_keys {V : Type} (d : list (string * V)) (k : string) :
  In k (Py.keys d) -> exists v, Py.dict_get d k = Some v.
Proof.
  unfold Py.keys. induction d as [|[k' v'] d IH]; cbn [map fst In Py.dict_get]; [tauto|].
  intros H. destruct (k' =? k) eqn:E; [eauto|].
  apply IH. destruct H as [H|H]; [|exact H]. apply String.eqb_neq in E. contradiction.
Qed.

(** A typed record holds, under each key of [OptionData], a value of the
    declared type. *)
Lemma typed_cell_of (r : record) (label : string) :
  follows_shape r -> typed_as_OptionData r = true -> In label OptionData_fields ->
  cell_has_type (declared_type label) (pd.cell_of r label) = true.
Proof.
  intros Hshape Htyped Hin.
  assert (Hnd : NoDup (Py.keys r)).
  { apply (Permutation_NoDup (l := OptionData_fields)); [symmetry; exact Hshape|].
    apply (shape_distinct Shape_OptionData). }
  assert (Hkey : In label (Py.keys r)).
  { apply (Permutation_in (l := OptionData_fields)); [symmetry; exact Hshape|exact Hin]. }
  unfold Py.keys in Hkey. apply in_map_iff in Hkey. destruct Hkey as [[k v] [Hk Hkv]].
  cbn [fst] in Hk. subst k. rewrite (cell_of_In r label v Hnd Hkv).
  unfold typed_as_OptionData in Htyped. rewrite forallb_forall in Htyped.
  specialize (Htyped (label, v) Hkv). cbn [fst snd] in Htyped.
  unfold declared_type, cell_has_type.
  destruct (Py.dict_get OptionData label); [exact Htyped|discriminate Htyped].
Qed.

Lemma Forall2_map_in {X Y Z : Type} (P : Y -> Z -> Prop) (f : X -> Y) (g : X -> Z) (l : list X) :
  (forall x, In x l -> P (f x) (g x)) -> Forall2 P (map f l) (map g l).
Proof.
  induction l as [|x l IH]; intros H; cbn [map]; constructor.
  - apply H. left. reflexivity.
  - apply IH. intros y Hy. apply H. right. exact Hy.
Qed.

(** With typed records no column of the frame mixes types: the cells of a
    label are all of the type declared for its key, in the call rows and in
    the put rows alike. *)
Lemma typed_frame_columns (records : list record) :
  Forall follows_shape records ->
  Forall (fun r => typed_as_OptionData r = true) records ->
  exists df types, reshape records = Some (Return df) /\ column_types types df.
Proof.
  intros Hall Htyped. destruct records as [|r0 rest].
  - exists (mkDataFrame ["option_type"] []), []. split; [reflexivity|constructor].
  - pose proof (union_keys_schema OptionData_fields r0 rest
                  (shape_distinct Shape_OptionData) (follows_shape_schema _ Hall)) as Hcols.
    assert (Hr0 : follows_shape r0) by (inversion Hall; assumption).
    assert (Hs : Shape (Py.keys r0)).
    { apply (Shape_Permutation OptionData_fields); [symmetry; exact Hr0|exact Shape_OptionData]. }
    assert (Hfield : forall label, In label (Py.keys r0) -> In label OptionData_fields).
    { intros label. apply Permutation_in. exact Hr0. }
    rewrite reshape_clean_frame, clean_frame_shaped by (rewrite Hcols; exact Hs).
    rewrite Hcols. do 2 eexists. split; [reflexivity|].
    unfold column_types. cbn [data].
    instantiate (1 := map declared_type (leg_labels "_C" (Py.keys r0)) ++ [Tstr]).
    rewrite Forall_forall in Hall, Htyped.
    apply Forall_app. split; apply Forall_forall; intros row Hrow;
      apply in_map_iff in Hrow; destruct Hrow as [r [<- Hr]]; unfold leg_cells;
      (apply Forall2_app; [|repeat constructor]).
    + apply Forall2_map_in. intros label Hlabel.
      apply (typed_cell_of r label (Hall r Hr) (Htyped r Hr)), Hfield.
      apply (leg_labels_incl _ Hs "_C"); auto.
    + rewrite (leg_labels_call _ Hs), (leg_labels_put (Py.keys r0)), !map_app, map_map.
      apply Forall2_app; apply Forall2_map_in; intros label Hlabel.
      * apply (typed_cell_of r label (Hall r Hr) (Htyped r Hr)), Hfield.
        apply filter_In in Hlabel. tauto.
      * pose proof Hlabel as Hc. apply filter_In in Hc. destruct Hc as [Hin Hend].
        rewrite (stem_removesuffix _ Hs label Hlabel).
        assert (Htwin : In (removesuffix label "_C" ++ "_P")%string OptionData_fields).
        { apply Hfield. rewrite <- (stem_removesuffix _ Hs label Hlabel).
          apply (shape_call Hs label Hin Hend). }
        pose proof (typed_cell_of r _ (Hall r Hr) (Htyped r Hr) Htwin) as Hcell.
        destruct (dict_get_keys OptionData label) as [t Ht].
        { rewrite OptionData_keys. apply Hfield, Hin. }
        unfold declared_type in *. rewrite Ht.
        rewrite (OptionData_twins label t Ht Hend) in Hcell. exact Hcell.
Qed.

(** C6, as the code has it: for records with the keys of [OptionData] and
    values of the types it declares, the value of a call field of the record
    at position [i] stands unchanged, under the renamed key, in row [i]; the
    value of a put field in row [n + i], for [n] records; the value of a
    general field in both.  No column of the frame mixes types, so that
    pandas has no value to convert. *)
Theorem clean_entire_market_data_values
  (records : list record) (i : nat) (r : record) (k : string) (v : json) :
  Forall follows_shape records ->
  Forall (fun r => typed_as_OptionData r = true) records ->
  nth_error records i = Some r ->
  In (k, v) r ->
  let rows := rows_of (reshape records) in
  let call_row := nth i rows [] in
  let put_row := nth (List.length records + i) rows [] in
  match kind_of k with
  | GeneralField =>
      Py.dict_get call_row (renamed GENERAL_COLUMN_NAMES k) = Some (Cell v) /\
      Py.dict_get put_row (renamed GENERAL_COLUMN_NAMES k) = Some (Cell v)
  | CallField =>
      Py.dict_get call_row (renamed SPECIFIC_COLUMN_NAMES (removesuffix k "_C")) = Some (Cell v)
  | PutField =>
      Py.dict_get put_row (renamed SPECIFIC_COLUMN_NAMES (removesuffix k "_P")) = Some (Cell v)
  end
  /\ exists df types, reshape records = Some (Return df) /\ column_types types df.
Proof.
  intros Hall Htyped Hi Hin rows call_row put_row.
  split; [|exact (typed_frame_columns records Hall Htyped)].
  destruct (reshape_schema OptionData_fields records Shape_OptionData
              (follows_shape_schema records Hall)) as [cols [Hnd [Hdf Hrows]]].
  rewrite Forall_forall in Hrows.
  destruct (Hrows r (nth_error_In _ _ Hi)) as [Hcall Hput].
  set (call_of := fun r => combine (final_labels cols) (leg_cells "_C" "call" cols r)).
  set (put_of := fun r => combine (final_labels cols) (leg_cells "_P" "put" cols r)).
  assert (Hrows_eq : rows = map call_of records ++ map put_of records).
  { subst rows. rewrite Hdf. unfold rows_of, pd.to_dict_records. cbn [columns data].
    rewrite map_app, !map_map. reflexivity. }
  assert (Hcall_row : call_row = call_of r).
  { subst call_row. rewrite Hrows_eq.
    apply nth_error_nth. rewrite nth_error_app1.
    - apply map_nth_error. exact Hi.
    - rewrite length_map. apply nth_error_Some. congruence. }
  assert (Hput_row : put_row = put_of r).
  { subst put_row. rewrite Hrows_eq.
    rewrite <- (length_map call_of records) at 1. rewrite app_nth2_plus.
    apply nth_error_nth, map_nth_error. exact Hi. }
  rewrite Hcall_row, Hput_row. unfold call_of, put_of, kind_of.
  destruct (Py.endswith k "_C") eqn:EC; [|destruct (Py.endswith k "_P") eqn:EP].
  - apply (row_dict_get cols "_C" "call" r _ _ _ Hnd Hcall).
    apply spec_leg_specific; assumption.
  - apply (row_dict_get cols "_P" "put" r _ _ _ Hnd Hput).
    apply spec_leg_specific; assumption.
  - assert (Hgen : is_general k = true) by (unfold is_general; rewrite EC, EP; reflexivity).
    split.
    + apply (row_dict_get cols "_C" "call" r _ _ _ Hnd Hcall).
      apply spec_leg_general; assumption.
    + apply (row_dict_get cols "_P" "put" r _ _ _ Hnd Hput).
      apply spec_leg_general; assumption.
Qed.

Lemma typed_sample_follows_shape : follows_shape typed_sample_record.
Proof. exact (Permutation_refl OptionData_fields). Qed.

Lemma clean_entire_market_data_values_witness :
  ((Py.dict_get (nth 0 (rows_of (reshape [typed_sample_record])) []) "ua_tse_code"
    = Some (Cell (JStr "uaInsCode")) /\
    Py.dict_get (nth 1 (rows_of (reshape [typed_sample_record])) []) "ua_tse_code"
    = Some (Cell (JStr "uaInsCode"))) /\
   Py.dict_get (nth 0 (rows_of (reshape [typed_sample_record])) []) "close_price"
   = Some (Cell (JInt 100)) /\
   Py.dict_get (nth 1 (rows_of (reshape [typed_sample_record])) []) "trades_value"
   = Some (Cell (JFloat 3 (-1))))
  /\ exists df types,
       reshape [typed_sample_record] = Some (Return df) /\ column_types types df.
Proof.
  assert (Hall : Forall follows_shape [typed_sample_record]).
  { apply Forall_cons; [exact typed_sample_follows_shape|apply Forall_nil]. }
  assert (Htyped : Forall (fun r => typed_as_OptionData r = true) [typed_sample_record]).
  { apply Forall_cons; [reflexivity|apply Forall_nil]. }
  assert (Hin : forall k v, Py.dict_get typed_sample_record k = Some v ->
                            In (k, v) typed_sample_record).
  { intros k v. generalize typed_sample_record as l. intros l.
    induction l as [|[k' v'] l IH]; cbn [Py.dict_get In]; [discriminate|].
    destruct (k' =? k) eqn:E.
    - apply String.eqb_eq in E. intros [= <-]. subst. auto.
    - intros H. right. apply IH. exact H. }
  pose proof (clean_entire_market_data_values [typed_sample_record] 0 typed_sample_record
                "uaInsCode" (JStr "uaInsCode") Hall Htyped eq_refl
                (Hin "uaInsCode" (JStr "uaInsCode") eq_refl)) as [Hgeneral Hcolumns].
  pose proof (clean_entire_market_data_values [typed_sample_record] 0 typed_sample_record
                "pClosing_C" (JInt 100) Hall Htyped eq_refl
                (Hin "pClosing_C" (JInt 100) eq_refl)) as [Hcall _].
  pose proof (clean_entire_market_data_values [typed_sample_record] 0 typed_sample_record
                "qTotCap_P" (JFloat 3 (-1)) Hall Htyped eq_refl
                (Hin "qTotCap_P" (JFloat 3 (-1)) eq_refl)) as [Hput _].
  split; [|exact Hcolumns].
  split; [exact Hgeneral|]. split; [exact Hcall|exact Hput].
Defined.

(** C6 as stated fails on the synthetic record: the value of its general
    field [uaInsCode] stands under [ua_tse_code] in the call row and in the
    put row, not in exactly one row. *)
Lemma general_value_in_both_rows :
  ~ in_exactly_one_row "ua_tse_code" (JStr "X") (rows_of (reshape [synthetic_record])).
Proof.
  rewrite reshape_synthetic. intros [i [_ Huniq]].
  assert (H0 : 0 = i).
  { apply Huniq. eexists. split; reflexivity. }
  assert (H1 : 1 = i).
  { apply Huniq. eexists. split; reflexivity. }
  congruence.
Qed.

(** * More of the module *)

(** ** The frame of any input *)

(** What a returning call went through. *)
Lemma clean_frame_Return (records : list record) (df : DataFrame) :
  clean_frame records = Return df ->
  exists picked_calls picked_puts result_df,
    pd.getitem (pd.from_records records) (leg_labels "_C" (pd.union_keys records))
    = Return picked_calls /\
    pd.getitem (pd.from_records records) (leg_labels "_P" (pd.union_keys records))
    = Return picked_puts /\
    pd.concat (leg_frame "_C" "call" picked_calls) (leg_frame "_P" "put" picked_puts)
    = Return result_df /\
    df = pd.rename result_df GENERAL_COLUMN_NAMES.
Proof.
  unfold clean_frame.
  change (columns (pd.from_records records)) with (pd.union_keys records).
  destruct (pd.getitem _ (leg_labels "_C" _)) as [pc|e] eqn:Ec; [|discriminate].
  destruct (pd.getitem _ (leg_labels "_P" _)) as [pp|e] eqn:Ep; [|discriminate].
  destruct (pd.concat _ _) as [res|e] eqn:Ecat; [|discriminate].
  intros [= <-]. exists pc, pp, res. auto.
Qed.

Lemma getitem_Return (df f : DataFrame) (labels : list string) :
  pd.getitem df labels = Return f ->
  f = mkDataFrame labels
        (map (fun row => map (fun label => nth (pd.index_of label (columns df)) row NaN) labels)
             (data df)).
Proof.
  unfold pd.getitem. destruct (filter _ labels); [|discriminate].
  intros [= <-]. reflexivity.
Qed.

Lemma getitem_Raise (df : DataFrame) (labels : list string) (e : exn) :
  pd.getitem df labels = Raise e ->
  exists missing,
    e = KeyError missing /\ missing <> [] /\
    forall label, In label missing -> In label labels /\ ~ In label (columns df).
Proof.
  unfold pd.getitem.
  destruct (filter (fun label => negb (Py.mem label (columns df))) labels) as [|x missing] eqn:E;
    [discriminate|].
  intros [= <-]. exists (x :: missing). split; [reflexivity|]. split; [discriminate|].
  intros label Hin. rewrite <- E in Hin. apply filter_In in Hin.
  destruct Hin as [Hin Hmem]. split; [exact Hin|].
  apply mem_not_In. apply negb_true_iff. exact Hmem.
Qed.

Lemma concat_Raise (a b : DataFrame) (e : exn) :
  pd.concat a b = Raise e -> e = InvalidIndexError.
Proof.
  unfold pd.concat. destruct (pd.same_labels _ _); [discriminate|].
  destruct (pd.distinct (columns a) && pd.distinct (columns b)); [discriminate|].
  intros [= <-]. reflexivity.
Qed.

Lemma same_labels_eq (a b : list string) : pd.same_labels a b = true -> a = b.
Proof.
  revert b. induction a as [|x a IH]; intros [|y b]; cbn [pd.same_labels]; try discriminate.
  - reflexivity.
  - rewrite andb_true_iff. intros [E H]. apply String.eqb_eq in E. subst.
    rewrite (IH b H). reflexivity.
Qed.

Lemma leg_frame_rows (suffix tag : string) (picked : DataFrame) :
  List.length (data (leg_frame suffix tag picked)) = List.length (data picked).
Proof.
  unfold leg_frame, pd.setitem, pd.rename. cbn [columns data].
  destruct (Py.mem _ _); cbn [data]; apply length_map.
Qed.

Lemma concat_rows (a b f : DataFrame) :
  pd.concat a b = Return f ->
  List.length (data f) = List.length (data a) + List.length (data b).
Proof.
  unfold pd.concat. destruct (pd.same_labels _ _).
  - intros [= <-]. cbn [data]. apply length_app.
  - destruct (pd.distinct (columns a) && pd.distinct (columns b)); [|discriminate].
    intros [= <-]. cbn [data]. rewrite length_app, !length_map. reflexivity.
Qed.

(** X1: whatever the keys of the records, a call that returns gives a frame
    of two rows per record. *)
Theorem clean_entire_market_data_two_rows_each (records : list record) (df : DataFrame) :
  reshape records = Some (Return df) ->
  List.length (data df) = 2 * List.length records.
Proof.
  rewrite reshape_clean_frame. intros [= H].
  destruct (clean_frame_Return records df H) as [pc [pp [res [Hc [Hp [Hcat ->]]]]]].
  cbn [pd.rename data]. rewrite (concat_rows _ _ _ Hcat), !leg_frame_rows.
  rewrite (getitem_Return _ _ _ Hc), (getitem_Return _ _ _ Hp). cbn [data pd.from_records].
  rewrite !length_map. lia.
Qed.

Lemma clean_entire_market_data_two_rows_each_witness :
  List.length
    (data (mkDataFrame ["bx"; "a"; "option_type"; "b_Cx"]
             [ [Cell (JInt 3); Cell (JInt 1); Cell (JStr "call"); NaN];
               [NaN; Cell (JInt 2); Cell (JStr "put"); Cell (JInt 3)] ]))
  = 2 * List.length [lopsided_record].
Proof.
  apply (clean_entire_market_data_two_rows_each [lopsided_record]).
  vm_compute. reflexivity.
Defined.

(** ** Rows and labels line up *)

Lemma getitem_rectangular (df f : DataFrame) (labels : list string) :
  pd.getitem df labels = Return f -> rectangular f.
Proof.
  intros H. rewrite (getitem_Return _ _ _ H). unfold rectangular. cbn [columns data].
  apply Forall_forall. intros row Hrow. apply in_map_iff in Hrow.
  destruct Hrow as [row0 [<- _]]. apply length_map.
Qed.

Lemma setitem_rectangular (df : DataFrame) (label : string) (v : json) :
  rectangular df -> rectangular (pd.setitem df label v).
Proof.
  unfold rectangular, pd.setitem. intros H. rewrite Forall_forall in H.
  destruct (Py.mem label (columns df)); cbn [columns data];
    apply Forall_forall; intros row Hrow; apply in_map_iff in Hrow;
    destruct Hrow as [row0 [<- Hrow0]].
  - rewrite length_map, length_combine, (H row0 Hrow0). apply Nat.min_id.
  - rewrite !length_app, (H row0 Hrow0). reflexivity.
Qed.

Lemma leg_frame_rectangular (suffix tag : string) (picked : DataFrame) :
  rectangular picked -> rectangular (leg_frame suffix tag picked).
Proof.
  intros H. unfold leg_frame. apply setitem_rectangular.
  unfold rectangular, pd.rename. cbn [columns data]. rewrite !length_map. exact H.
Qed.

Lemma concat_rectangular (a b f : DataFrame) :
  rectangular a -> rectangular b -> pd.concat a b = Return f -> rectangular f.
Proof.
  unfold rectangular, pd.concat. intros Ha Hb.
  destruct (pd.same_labels (columns a) (columns b)) eqn:E.
  - intros [= <-]. cbn [columns data]. apply Forall_app. split; [exact Ha|].
    rewrite (same_labels_eq _ _ E). exact Hb.
  - destruct (pd.distinct (columns a) && pd.distinct (columns b)); [|discriminate].
    intros [= <-]. cbn [columns data]. apply Forall_app.
    split; apply Forall_forall; intros row Hrow; apply in_map_iff in Hrow;
      destruct Hrow as [row0 [<- _]]; unfold pd.reindex; apply length_map.
Qed.

(** The frame a call returns is rectangular, whatever the keys of the
    records. *)
Lemma clean_frame_rectangular (records : list record) (df : DataFrame) :
  clean_frame records = Return df -> rectangular df.
Proof.
  intros H.
  destruct (clean_frame_Return records df H) as [pc [pp [res [Hc [Hp [Hcat ->]]]]]].
  assert (Hres : rectangular res).
  { apply (concat_rectangular _ _ _
             (leg_frame_rectangular "_C" "call" pc (getitem_rectangular _ _ _ Hc))
             (leg_frame_rectangular "_P" "put" pp (getitem_rectangular _ _ _ Hp)) Hcat). }
  unfold rectangular, pd.rename in *. cbn [columns data]. rewrite length_map. exact Hres.
Qed.

(** ** The tag of every row *)

Section Tag.
Variables (label : string) (v : json).

Lemma dict_get_overwritten (cols : list string) :
  forall row, List.length row = List.length cols -> In label cols ->
    Py.dict_get
      (combine cols (map (fun cv : string * cell => if fst cv =? label then Cell v else snd cv)
                         (combine cols row)))
      label = Some (Cell v).
Proof.
  induction cols as [|c cols IH]; intros [|x row] Hlen Hin; cbn in Hlen; try discriminate.
  - destruct Hin.
  - cbn [combine map Py.dict_get fst snd].
    destruct (c =? label) eqn:E; [reflexivity|].
    apply IH; [congruence|]. destruct Hin as [Hin|Hin]; [|exact Hin].
    apply String.eqb_neq in E. contradiction.
Qed.

Lemma dict_get_appended (cols : list string) :
  forall row, List.length row = List.length cols -> ~ In label cols ->
    Py.dict_get (combine (cols ++ [label]) (row ++ [Cell v])) label = Some (Cell v).
Proof.
  induction cols as [|c cols IH]; intros [|x row] Hlen Hin; cbn in Hlen; try discriminate.
  - cbn [app combine Py.dict_get]. rewrite String.eqb_refl. reflexivity.
  - cbn [app combine Py.dict_get].
    destruct (c =? label) eqn:E.
    + apply String.eqb_eq in E. exfalso. apply Hin. left. exact E.
    + apply IH; [congruence|]. intros H. apply Hin. right. exact H.
Qed.

Lemma setitem_has_label (df : DataFrame) : In label (columns (pd.setitem df label v)).
Proof.
  unfold pd.setitem. destruct (Py.mem label (columns df)) eqn:E; cbn [columns].
  - apply mem_In. exact E.
  - apply in_or_app. right. left. reflexivity.
Qed.

Lemma setitem_holds (df : DataFrame) :
  rectangular df ->
  Forall (fun row => Py.dict_get row label = Some (Cell v))
         (pd.to_dict_records (pd.setitem df label v)).
Proof.
  unfold rectangular, pd.to_dict_records, pd.setitem. intros H. rewrite Forall_forall in H.
  destruct (Py.mem label (columns df)) eqn:E; cbn [columns data];
    rewrite map_map; apply Forall_forall; intros row Hrow; apply in_map_iff in Hrow;
    destruct Hrow as [row0 [<- Hrow0]].
  - apply dict_get_overwritten; [apply H; exact Hrow0|apply mem_In; exact E].
  - apply dict_get_appended; [apply H; exact Hrow0|apply mem_not_In; exact E].
Qed.
End Tag.

Lemma dict_get_nth (k : string) (cols : list string) :
  forall (row : list cell) (c : cell),
    Py.dict_get (combine cols row) k = Some c ->
    In k cols /\ nth (pd.index_of k cols) row NaN = c.
Proof.
  induction cols as [|x cols IH]; intros [|y row] c; cbn [combine Py.dict_get]; try discriminate.
  cbn [pd.index_of]. destruct (x =? k) eqn:E.
  - intros [= <-]. apply String.eqb_eq in E. split; [left; exact E|reflexivity].
  - intros H. destruct (IH row c H) as [Hin Hnth]. split; [right; exact Hin|exact Hnth].
Qed.

Lemma dict_get_combine_map (f : string -> cell) (k : string) (l : list string) :
  In k l -> Py.dict_get (combine l (map f l)) k = Some (f k).
Proof.
  induction l as [|x l IH]; cbn [In map combine Py.dict_get]; [tauto|].
  intros H. destruct (x =? k) eqn:E.
  - apply String.eqb_eq in E. subst. reflexivity.
  - apply IH. destruct H as [H|H]; [|exact H]. apply String.eqb_neq in E. contradiction.
Qed.

Lemma dict_get_relabelled (F : string -> string) (k : string) (cols : list string) :
  (forall c, (F c =? k) = (c =? k)) ->
  forall row : list cell,
    Py.dict_get (combine (map F cols) row) k = Py.dict_get (combine cols row) k.
Proof.
  intros HF. induction cols as [|x cols IH]; intros [|y row]; cbn [map combine Py.dict_get];
    try reflexivity.
  rewrite HF, IH. reflexivity.
Qed.

(** A renaming that neither takes nor gives the label [x] leaves it where it
    is. *)
Lemma dict_get_default_eqb (d : list (string * string)) (x c : string) :
  (forall k v, In (k, v) d -> k <> x /\ v <> x) ->
  (Py.dict_get_default d c c =? x) = (c =? x).
Proof.
  unfold Py.dict_get_default. induction d as [|[k v] d IH]; intros H; cbn [Py.dict_get].
  - reflexivity.
  - destruct (k =? c) eqn:E.
    + apply String.eqb_eq in E. subst.
      destruct (H c v (or_introl eq_refl)) as [Hk Hv].
      apply String.eqb_neq in Hk, Hv. rewrite Hk, Hv. reflexivity.
    + apply IH. intros k' v' Hin. apply H. right. exact Hin.
Qed.

Lemma GENERAL_keeps_tag (c : string) :
  (Py.dict_get_default GENERAL_COLUMN_NAMES c c =? "option_type") = (c =? "option_type").
Proof.
  apply dict_get_default_eqb. intros k v Hin. unfold GENERAL_COLUMN_NAMES in Hin.
  cbn [In] in Hin.
  repeat (destruct Hin as [[= <- <-]|Hin]; [split; discriminate|]).
  destruct Hin.
Qed.

Lemma reindex_holds (cols new_cols : list string) (row : list cell) (k : string) (c : cell) :
  In k new_cols ->
  Py.dict_get (combine cols row) k = Some c ->
  Py.dict_get (combine new_cols (pd.reindex cols new_cols row)) k = Some c.
Proof.
  intros Hnew Hget. destruct (dict_get_nth k cols row c Hget) as [Hin Hnth].
  unfold pd.reindex.
  rewrite (dict_get_combine_map
             (fun label => if Py.mem label cols then nth (pd.index_of label cols) row NaN else NaN)
             k new_cols Hnew).
  apply mem_In in Hin. rewrite Hin, Hnth. reflexivity.
Qed.

(** Joining two tagged frames keeps the tags: the first rows are those of the
    first frame, the others those of the second. *)
Lemma concat_tagged (ta tb : string) (a b f : DataFrame) :
  In "option_type" (columns a) ->
  In "option_type" (columns b) ->
  tagged ta (pd.to_dict_records a) ->
  tagged tb (pd.to_dict_records b) ->
  pd.concat a b = Return f ->
  exists da db,
    data f = da ++ db /\ List.length da = List.length (data a) /\
    tagged ta (map (combine (columns f)) da) /\
    tagged tb (map (combine (columns f)) db).
Proof.
  unfold tagged, pd.to_dict_records, pd.concat. intros Hia Hib Ha Hb.
  destruct (pd.same_labels (columns a) (columns b)) eqn:E.
  - intros [= <-]. cbn [columns data]. exists (data a), (data b).
    repeat split; [exact Ha|]. rewrite (same_labels_eq _ _ E). exact Hb.
  - destruct (pd.distinct (columns a) && pd.distinct (columns b)); [|discriminate].
    intros [= <-]. cbn [columns data]. do 2 eexists.
    split; [reflexivity|]. split; [apply length_map|].
    rewrite Forall_forall in Ha, Hb.
    split; rewrite map_map; apply Forall_forall; intros row Hrow;
      apply in_map_iff in Hrow; destruct Hrow as [row0 [<- Hrow0]];
      apply reindex_holds; try (apply in_or_app; left; exact Hia).
    + apply Ha. apply in_map. exact Hrow0.
    + apply Hb. apply in_map. exact Hrow0.
Qed.

Lemma firstn_skipn_app {X : Type} (a b : list X) :
  firstn (List.length a) (a ++ b) = a /\ skipn (List.length a) (a ++ b) = b.
Proof.
  induction a as [|x a [IH1 IH2]]; cbn [List.length app firstn skipn]; [auto|].
  rewrite IH1. auto.
Qed.

(** X2: whatever the keys of the records, every row of the frame a call
    returns is tagged: the first [n] rows hold [call] under [option_type], the
    rows after them hold [put], for [n] records. *)
Theorem clean_entire_market_data_tagged (records : list record) (df : DataFrame) :
  reshape records = Some (Return df) ->
  tagged "call" (firstn (List.length records) (pd.to_dict_records df)) /\
  tagged "put" (skipn (List.length records) (pd.to_dict_records df)).
Proof.
  rewrite reshape_clean_frame. intros [= H].
  destruct (clean_frame_Return records df H) as [pc [pp [res [Hc [Hp [Hcat ->]]]]]].
  pose proof (getitem_rectangular _ _ _ Hc) as Hrc.
  pose proof (getitem_rectangular _ _ _ Hp) as Hrp.
  assert (Hpre : forall suffix picked, rectangular picked ->
            rectangular (pd.rename
              (mkDataFrame (map (fun col => Py.replace col suffix "") (columns picked))
                           (data picked)) SPECIFIC_COLUMN_NAMES)).
  { intros suffix picked Hr. unfold rectangular, pd.rename in *. cbn [columns data].
    rewrite !length_map. exact Hr. }
  destruct (concat_tagged "call" "put" (leg_frame "_C" "call" pc) (leg_frame "_P" "put" pp) res
              (setitem_has_label "option_type" (JStr "call") _)
              (setitem_has_label "option_type" (JStr "put") _)
              (setitem_holds "option_type" (JStr "call") _ (Hpre "_C" pc Hrc))
              (setitem_holds "option_type" (JStr "put") _ (Hpre "_P" pp Hrp)) Hcat)
    as [da [db [Hdata [Hlen [Hta Htb]]]]].
  assert (Hn : List.length records
               = List.length
                   (map (combine (map (fun c => Py.dict_get_default GENERAL_COLUMN_NAMES c c)
                                      (columns res))) da)).
  { rewrite length_map, Hlen, leg_frame_rows, (getitem_Return _ _ _ Hc).
    cbn [data pd.from_records]. rewrite !length_map. reflexivity. }
  assert (Hrows : pd.to_dict_records (pd.rename res GENERAL_COLUMN_NAMES)
                  = map (combine (map (fun c => Py.dict_get_default GENERAL_COLUMN_NAMES c c)
                                      (columns res))) da
                    ++ map (combine (map (fun c => Py.dict_get_default GENERAL_COLUMN_NAMES c c)
                                         (columns res))) db).
  { unfold pd.to_dict_records, pd.rename. cbn [columns data]. rewrite Hdata, map_app.
    reflexivity. }
  rewrite Hrows, Hn.
  destruct (firstn_skipn_app
              (map (combine (map (fun c => Py.dict_get_default GENERAL_COLUMN_NAMES c c)
                                 (columns res))) da)
              (map (combine (map (fun c => Py.dict_get_default GENERAL_COLUMN_NAMES c c)
                                 (columns res))) db)) as [-> ->].
  unfold tagged in *. rewrite Forall_map in Hta, Htb. rewrite !Forall_map.
  split; [revert Hta|revert Htb]; apply Forall_impl; intros row Hrow;
    rewrite (dict_get_relabelled _ "option_type" _ GENERAL_keeps_tag); exact Hrow.
Qed.

Lemma clean_entire_market_data_tagged_witness :
  tagged "call"
    (firstn 1 (pd.to_dict_records
       (mkDataFrame ["bx"; "a"; "option_type"; "b_Cx"]
          [ [Cell (JInt 3); Cell (JInt 1); Cell (JStr "call"); NaN];
            [NaN; Cell (JInt 2); Cell (JStr "put"); Cell (JInt 3)] ]))) /\
  tagged "put"
    (skipn 1 (pd.to_dict_records
       (mkDataFrame ["bx"; "a"; "option_type"; "b_Cx"]
          [ [Cell (JInt 3); Cell (JInt 1); Cell (JStr "call"); NaN];
            [NaN; Cell (JInt 2); Cell (JStr "put"); Cell (JInt 3)] ]))).
Proof.
  apply (clean_entire_market_data_tagged [lopsided_record]).
  vm_compute. reflexivity.
Defined.

(** ** The exceptions of the call *)

Lemma clean_frame_Raise (records : list record) (e : exn) :
  clean_frame records = Raise e ->
  pd.getitem (pd.from_records records) (leg_labels "_C" (pd.union_keys records)) = Raise e \/
  pd.getitem (pd.from_records records) (leg_labels "_P" (pd.union_keys records)) = Raise e \/
  exists a b, pd.concat a b = Raise e.
Proof.
  unfold clean_frame.
  change (columns (pd.from_records records)) with (pd.union_keys records).
  destruct (pd.getitem _ (leg_labels "_C" _)) as [pc|e1]; [|intros [= <-]; auto].
  destruct (pd.getitem _ (leg_labels "_P" _)) as [pp|e1]; [|intros [= <-]; auto].
  destruct (pd.concat _ _) as [res|e1] eqn:Ecat; [discriminate|].
  intros [= <-]. right. right. eauto.
Qed.

(** A picked label the frame lacks is a stem with a leg suffix. *)
Lemma leg_labels_missing (suffix : string) (cols : list string) (label : string) :
  In label (leg_labels suffix cols) -> ~ In label cols ->
  exists c, In c cols /\ Py.endswith c "_C" = true /\
            label = (Py.replace c "_C" "" ++ suffix)%string.
Proof.
  unfold leg_labels, general_labels, specific_stems. intros Hin Hout.
  apply in_app_or in Hin. destruct Hin as [Hin|Hin].
  - apply filter_In in Hin. tauto.
  - rewrite map_map in Hin. apply in_map_iff in Hin. destruct Hin as [c [<- Hc]].
    apply filter_In in Hc. exists c. tauto.
Qed.

(** X3: whatever the keys of the records, the call raises nothing but a
    [KeyError] or an [InvalidIndexError].  The [KeyError] names at least one
    label, and each label it names is the stem of a call label with a leg
    suffix that no record has as a key. *)
Theorem clean_entire_market_data_exceptions (records : list record) (e : exn) :
  reshape records = Some (Raise e) ->
  e = InvalidIndexError \/
  exists missing,
    e = KeyError missing /\ missing <> [] /\
    forall label, In label missing ->
      ~ In label (pd.union_keys records) /\
      exists c, In c (pd.union_keys records) /\ Py.endswith c "_C" = true /\
                (label = (Py.replace c "_C" "" ++ "_C")%string \/
                 label = (Py.replace c "_C" "" ++ "_P")%string).
Proof.
  rewrite reshape_clean_frame. intros [= H].
  destruct (clean_frame_Raise records e H) as [Hget|[Hget|[a [b Hcat]]]].
  - right. destruct (getitem_Raise _ _ _ Hget) as [missing [-> [Hne Hmiss]]].
    exists missing. split; [reflexivity|]. split; [exact Hne|].
    intros label Hlabel. destruct (Hmiss label Hlabel) as [Hin Hout].
    split; [exact Hout|].
    destruct (leg_labels_missing "_C" _ label Hin Hout) as [c [Hc [Hend ->]]]. eauto.
  - right. destruct (getitem_Raise _ _ _ Hget) as [missing [-> [Hne Hmiss]]].
    exists missing. split; [reflexivity|]. split; [exact Hne|].
    intros label Hlabel. destruct (Hmiss label Hlabel) as [Hin Hout].
    split; [exact Hout|].
    destruct (leg_labels_missing "_P" _ label Hin Hout) as [c [Hc [Hend ->]]]. eauto.
  - left. apply (concat_Raise a b e Hcat).
Qed.

Lemma clean_entire_market_data_exceptions_witness :
  KeyError ["insCode_P"] = InvalidIndexError \/
  exists missing,
    KeyError ["insCode_P"] = KeyError missing /\ missing <> [] /\
    forall label, In label missing ->
      ~ In label (pd.union_keys [call_only_record]) /\
      exists c, In c (pd.union_keys [call_only_record]) /\ Py.endswith c "_C" = true /\
                (label = (Py.replace c "_C" "" ++ "_C")%string \/
                 label = (Py.replace c "_C" "" ++ "_P")%string).
Proof.
  apply (clean_entire_market_data_exceptions [call_only_record]).
  vm_compute. reflexivity.
Defined.

Lemma getitem_missing (df : DataFrame) (labels : list string) (label : string) :
  In label labels -> ~ In label (columns df) ->
  exists missing, pd.getitem df labels = Raise (KeyError missing) /\ In label missing.
Proof.
  intros Hin Hout. unfold pd.getitem.
  assert (Hmiss : In label (filter (fun l => negb (Py.mem l (columns df))) labels)).
  { apply filter_In. split; [exact Hin|]. apply negb_true_iff, mem_not_In. exact Hout. }
  destruct (filter _ labels) as [|x missing]; [destruct Hmiss|].
  exists (x :: missing). split; [reflexivity|exact Hmiss].
Qed.

(** X4: a call field whose put twin no record has makes the call raise a
    [KeyError]: with the key [c] ending in [_C] among the records, and the stem
    of [c] with [_P] not among them, no frame comes back. *)
Theorem clean_entire_market_data_call_without_put (records : list record) (c : string) :
  In c (pd.union_keys records) ->
  Py.endswith c "_C" = true ->
  ~ In (Py.replace c "_C" "" ++ "_P")%string (pd.union_keys records) ->
  exists missing, reshape records = Some (Raise (KeyError missing)).
Proof.
  intros Hc Hend Hput. rewrite reshape_clean_frame. unfold clean_frame.
  change (columns (pd.from_records records)) with (pd.union_keys records).
  destruct (pd.getitem _ (leg_labels "_C" _)) as [pc|e] eqn:Ecalls.
  - assert (Hin : In (Py.replace c "_C" "" ++ "_P")%string
                     (leg_labels "_P" (pd.union_keys records))).
    { unfold leg_labels, specific_stems. apply in_or_app. right. rewrite map_map.
      apply in_map_iff. exists c. split; [reflexivity|]. apply filter_In. auto. }
    destruct (getitem_missing (pd.from_records records) _ _ Hin Hput) as [missing [-> _]].
    exists missing. reflexivity.
  - destruct (getitem_Raise _ _ _ Ecalls) as [missing [-> _]].
    exists missing. reflexivity.
Qed.

Lemma clean_entire_market_data_call_without_put_witness :
  exists missing, reshape [call_only_record] = Some (Raise (KeyError missing)).
Proof.
  apply (clean_entire_market_data_call_without_put [call_only_record] "insCode_C").
  - right. left. reflexivity.
  - reflexivity.
  - vm_compute. intuition discriminate.
Defined.

(** ** The frame of the call on the heap *)

(** X5: a call that returns gives back a new object: its location was free
    before the call, it is not the location of the list, and it holds a frame
    after the call. *)
Theorem clean_entire_market_data_returns_new_frame
  (h : heap) (raw_data l : loc) (records : list record) :
  nth_error h raw_data = Some (PyList records) ->
  fst (clean_entire_market_data raw_data h) = Return l ->
  nth_error h l = None /\ l <> raw_data /\
  exists df, nth_error (snd (clean_entire_market_data raw_data h)) l = Some (Frame df).
Proof.
  intros Hraw.
  destruct (clean_entire_market_data_run records h raw_data Hraw) as [r [fresh [Hrun Hr]]].
  rewrite Hrun. cbn [fst snd]. destruct r as [k|e]; [|discriminate].
  intros [= <-]. destruct Hr as [df [Hk _]].
  assert (Hfree : nth_error h (List.length h + k) = None) by (apply nth_error_None; lia).
  split; [exact Hfree|]. split; [congruence|].
  exists df. rewrite nth_error_fresh. exact Hk.
Qed.

Lemma clean_entire_market_data_returns_new_frame_witness :
  nth_error [PyList []; PyList [synthetic_record]] 7 = None /\ 7 <> 1 /\
  exists df,
    nth_error (snd (clean_entire_market_data 1 [PyList []; PyList [synthetic_record]])) 7
    = Some (Frame df).
Proof.
  apply (clean_entire_market_data_returns_new_frame
           [PyList []; PyList [synthetic_record]] 1 7 [synthetic_record]).
  - reflexivity.
  - vm_compute. reflexivity.
Defined.

(** ** More on fetching *)

Lemma dict_get_MARKETS_NUM_Some (market : string) (market_num : Z) :
  Py.dict_get MARKETS_NUM market = Some market_num ->
  (market = "bourse" /\ market_num = 1%Z) \/ (market = "fara_bourse" /\ market_num = 2%Z).
Proof.
  change (Py.dict_get MARKETS_NUM market)
    with (if "bourse" =? market then Some 1%Z
          else if "fara_bourse" =? market then Some 2%Z else None).
  destruct ("bourse" =? market) eqn:E1.
  - apply String.eqb_eq in E1. intros [= <-]. auto.
  - destruct ("fara_bourse" =? market) eqn:E2; [|discriminate].
    apply String.eqb_eq in E2. intros [= <-]. auto.
Qed.

(** X6: whatever the market and the network, [fetch_option_data] makes at
    most one request, and never to another address than one of the two market
    watch URLs. *)
Theorem fetch_option_data_requests (net : network) (market : string) :
  List.length (fst (fetch_option_data net market)) <= 1 /\
  forall url, In url (fst (fetch_option_data net market)) ->
    url = "https://cdn.tsetmc.com/api/Instrument/GetInstrumentOptionMarketWatch/1" \/
    url = "https://cdn.tsetmc.com/api/Instrument/GetInstrumentOptionMarketWatch/2".
Proof.
  unfold fetch_option_data.
  destruct (Py.dict_get MARKETS_NUM market) as [market_num|] eqn:E; cbn [fst List.length].
  - split; [lia|]. intros url [<-|[]].
    destruct (dict_get_MARKETS_NUM_Some market market_num E) as [[_ ->]|[_ ->]]; auto.
  - split; [lia|]. intros url [].
Qed.

Lemma py_len_has_len (data : json) :
  py_len data = (if has_len data then py_len data else Raise (TypeError "object has no len()"))
  /\ (has_len data = true -> exists n, py_len data = Return n).
Proof.
  destruct data; cbn; split; try reflexivity; try discriminate; eauto.
Qed.

(** X7: for a known market, [fetch_option_data] returns exactly when the reply
    has no error status and its body is a JSON object whose data field, or the
    empty list in its absence, is a list, a dict or a string; what it returns
    is then that value as it came. *)
Theorem fetch_option_data_returns (net : network) (market : string) (market_num : Z) (data : json) :
  Py.dict_get MARKETS_NUM market = Some market_num ->
  (snd (fetch_option_data net market) = Return data <->
   exists status_code fields,
     net (market_watch_url market_num) = Response status_code (Some (JObj fields)) /\
     ~ (400 <= status_code < 600)%Z /\
     data = Py.dict_get_default fields "instrumentOptMarketWatch" (JArr []) /\
     has_len data = true).
Proof.
  intros Hnum. rewrite (fetch_option_data_outcome net _ _ Hnum). split.
  - destruct (net (market_watch_url market_num)) as [t|status_code body]; [discriminate|].
    destruct ((400 <=? status_code)%Z && (status_code <? 600)%Z) eqn:Est; [discriminate|].
    assert (Hst : ~ (400 <= status_code < 600)%Z).
    { intro H. apply error_status_dec in H. congruence. }
    destruct body as [[| | | | | |fields]|]; try discriminate.
    cbv zeta. destruct (py_len _) as [n|e] eqn:Elen; [|discriminate].
    intros [= <-]. exists status_code, fields. repeat split; auto.
    destruct (Py.dict_get_default fields _ _); cbn in Elen; try discriminate; reflexivity.
  - intros [status_code [fields [-> [Hst [-> Hlen]]]]].
    destruct ((400 <=? status_code)%Z && (status_code <? 600)%Z) eqn:Est.
    + apply error_status_dec in Est. contradiction.
    + cbv zeta. destruct (proj2 (py_len_has_len _) Hlen) as [n ->]. reflexivity.
Qed.

Lemma fetch_option_data_returns_witness :
  snd (fetch_option_data net_half "bourse") = Return (JArr [JObj synthetic_record]) <->
  exists status_code fields,
    net_half (market_watch_url 1) = Response status_code (Some (JObj fields)) /\
    ~ (400 <= status_code < 600)%Z /\
    JArr [JObj synthetic_record]
    = Py.dict_get_default fields "instrumentOptMarketWatch" (JArr []) /\
    has_len (JArr [JObj synthetic_record]) = true.
Proof.
  apply (fetch_option_data_returns net_half "bourse" 1). reflexivity.
Defined.

(** X8: a data field that is there but holds [null], a boolean or a number
    is not taken for an absent one: with a reply without error status the
    fetch raises a [TypeError], which is no [RequestException]. *)
Theorem fetch_option_data_data_without_len
  (net : network) (market : string) (market_num status_code : Z)
  (fields : list (string * json)) (data : json) :
  Py.dict_get MARKETS_NUM market = Some market_num ->
  net (market_watch_url market_num) = Response status_code (Some (JObj fields)) ->
  ~ (400 <= status_code < 600)%Z ->
  Py.dict_get fields "instrumentOptMarketWatch" = Some data ->
  has_len data = false ->
  exists msg,
    snd (fetch_option_data net market) = Raise (TypeError msg) /\
    is_RequestException (TypeError msg) = false.
Proof.
  intros Hnum Hreply Hst Hget Hlen.
  rewrite (fetch_option_data_outcome net _ _ Hnum), Hreply.
  destruct ((400 <=? status_code)%Z && (status_code <? 600)%Z) eqn:Est.
  - apply error_status_dec in Est. contradiction.
  - unfold Py.dict_get_default. rewrite Hget. cbv zeta.
    destruct data; try discriminate Hlen; cbn; eauto.
Qed.

Lemma fetch_option_data_data_without_len_witness :
  exists msg,
    snd (fetch_option_data net_null "bourse") = Raise (TypeError msg) /\
    is_RequestException (TypeError msg) = false.
Proof.
  apply (fetch_option_data_data_without_len net_null "bourse" 1 200
           [("instrumentOptMarketWatch", JNull)] JNull); try reflexivity.
  lia.
Defined.

(** X9: a reply without error status whose JSON body is not an object makes
    the fetch raise an [AttributeError], which is no [RequestException]. *)
Theorem fetch_option_data_body_not_object
  (net : network) (market : string) (market_num status_code : Z) (body : json) :
  Py.dict_get MARKETS_NUM market = Some market_num ->
  net (market_watch_url market_num) = Response status_code (Some body) ->
  ~ (400 <= status_code < 600)%Z ->
  (forall fields, body <> JObj fields) ->
  exists msg,
    snd (fetch_option_data net market) = Raise (AttributeError msg) /\
    is_RequestException (AttributeError msg) = false.
Proof.
  intros Hnum Hreply Hst Hbody.
  rewrite (fetch_option_data_outcome net _ _ Hnum), Hreply.
  destruct ((400 <=? status_code)%Z && (status_code <? 600)%Z) eqn:Est.
  - apply error_status_dec in Est. contradiction.
  - destruct body as [| | | | | |fields]; try (eexists; split; reflexivity).
    exfalso. apply (Hbody fields). reflexivity.
Qed.

Lemma fetch_option_data_body_not_object_witness :
  exists msg,
    snd (fetch_option_data net_list "fara_bourse") = Raise (AttributeError msg) /\
    is_RequestException (AttributeError msg) = false.
Proof.
  apply (fetch_option_data_body_not_object net_list "fara_bourse" 2 200
           (JArr [JObj synthetic_record])); try reflexivity.
  - lia.
  - intros fields H. discriminate H.
Defined.

(** ** The pipeline *)

Lemma as_records_JObj (records : list record) : as_records (map JObj records) = Some records.
Proof.
  induction records as [|r records IH]; cbn [map as_records]; [reflexivity|].
  rewrite IH. reflexivity.
Qed.

(** The dispatcher always returns. *)
Lemma fetch_entire_market_data_Return (net : network) :
  exists items, fetch_entire_market_data net = Return items.
Proof.
  unfold fetch_entire_market_data.
  change (Py.keys MARKETS_NUM) with ["bourse"; "fara_bourse"].
  cbn [map collect_results].
  destruct (snd (fetch_option_data net "bourse")) as [d1|e1] eqn:E1;
    destruct (snd (fetch_option_data net "fara_bourse")) as [d2|e2] eqn:E2;
    try destruct (fetch_option_data_returns_iterable _ _ _ E1) as [l1 H1];
    try destruct (fetch_option_data_returns_iterable _ _ _ E2) as [l2 H2];
    try rewrite H1; try rewrite H2; cbn;
    try rewrite (fetch_option_data_raises_Exception _ _ _ E1);
    try rewrite (fetch_option_data_raises_Exception _ _ _ E2); eauto.
Qed.


Lemma fetch_entire_market_data_none (net : network) (e1 e2 : exn) :
  snd (fetch_option_data net "bourse") = Raise e1 ->
  snd (fetch_option_data net "fara_bourse") = Raise e2 ->
  fetch_entire_market_data net = Return [].
Proof.
  intros H1 H2. unfold fetch_entire_market_data.
  change (Py.keys MARKETS_NUM) with ["bourse"; "fara_bourse"].
  cbn [map collect_results]. rewrite H1, H2. cbn.
  rewrite (fetch_option_data_raises_Exception _ _ _ H1).
  rewrite (fetch_option_data_raises_Exception _ _ _ H2). reflexivity.
Qed.

(** The pipeline on fetched records leaves the table [reshape] gives, on any
    heap. *)
Lemma fetch_cleaned_entire_market_data_run (net : network) (records : list record) :
  fetch_entire_market_data net = Return (map JObj records) ->
  exists pipeline,
    fetch_cleaned_entire_market_data net = Some pipeline /\
    forall h, table (snd (pipeline h)) (fst (pipeline h)) = reshape records.
Proof.
  intros Hfetch. unfold fetch_cleaned_entire_market_data.
  rewrite Hfetch, as_records_JObj. eexists. split; [reflexivity|].
  intros h.
  assert (Hraw : nth_error (h ++ [PyList records]) (List.length h) = Some (PyList records)).
  { rewrite nth_error_app2 by lia. rewrite Nat.sub_diag. reflexivity. }
  pose proof (clean_entire_market_data_reshape _ _ _ Hraw) as Hrun.
  unfold bind at 1. unfold new.
  unfold bind. destruct (clean_entire_market_data _ _) as [[l|e] h']; exact Hrun.
Qed.


(** X10: when the fetch of both markets fails, the pipeline does not fail: on
    any heap it returns a frame without rows, whose only label is
    [option_type]. *)
Theorem fetch_cleaned_entire_market_data_nothing_fetched (net : network) (e1 e2 : exn) :
  snd (fetch_option_data net "bourse") = Raise e1 ->
  snd (fetch_option_data net "fara_bourse") = Raise e2 ->
  exists pipeline,
    fetch_cleaned_entire_market_data net = Some pipeline /\
    forall h, table (snd (pipeline h)) (fst (pipeline h))
              = Some (Return (mkDataFrame ["option_type"] [])).
Proof.
  intros H1 H2.
  destruct (fetch_cleaned_entire_market_data_run net []
              (fetch_entire_market_data_none net e1 e2 H1 H2)) as [pipeline [Hp Hrun]].
  exists pipeline. split; [exact Hp|]. intros h. rewrite Hrun. vm_compute. reflexivity.
Qed.

Lemma fetch_cleaned_entire_market_data_nothing_fetched_witness :
  exists pipeline,
    fetch_cleaned_entire_market_data net_down = Some pipeline /\
    forall h, table (snd (pipeline h)) (fst (pipeline h))
              = Some (Return (mkDataFrame ["option_type"] [])).
Proof.
  apply (fetch_cleaned_entire_market_data_nothing_fetched net_down
           (RequestException (Transport ConnectionError))
           (RequestException (Transport ConnectionError))); reflexivity.
Defined.



(** ** The script *)




(** X13: when the fetch of both markets fails and the file can be written,
    the script writes a file without rows, and then the look at the first
    record raises an [IndexError], which is logged. *)
Theorem main_nothing_fetched
  (net : network) (to_csv : string -> DataFrame -> result unit) (h : heap) (e1 e2 : exn) :
  snd (fetch_option_data net "bourse") = Raise e1 ->
  snd (fetch_option_data net "fara_bourse") = Raise e2 ->
  to_csv csv_path (mkDataFrame ["option_type"] []) = Return tt ->
  main net to_csv h
  = Some ([Saved csv_path (mkDataFrame ["option_type"] []); LoggedException IndexError], None).
Proof.
  intros H1 H2 Hwrite. unfold main.
  destruct (fetch_cleaned_entire_market_data_run net []
              (fetch_entire_market_data_none net e1 e2 H1 H2)) as [pipeline [-> Hrun]].
  rewrite Hrun.
  change (reshape []) with (Some (Return (mkDataFrame ["option_type"] []))).
  cbv beta iota. rewrite Hwrite. reflexivity.
Qed.

Lemma main_nothing_fetched_witness :
  main net_down (fun _ _ => Return tt) []
  = Some ([Saved csv_path (mkDataFrame ["option_type"] []); LoggedException IndexError], None).
Proof.
  apply (main_nothing_fetched net_down (fun _ _ => Return tt) []
           (RequestException (Transport ConnectionError))
           (RequestException (Transport ConnectionError))); reflexivity.
Defined.

(** ** A put field without a call twin *)

Lemma endswith_C_not_P (s : string) :
  Py.endswith s "_P" = true -> Py.endswith s "_C" = false.
Proof.
  induction s as [|c s IH]; [discriminate|].
  cbn [Py.endswith]. intros H. apply orb_true_iff in H. apply orb_false_iff.
  destruct H as [H|H].
  - apply String.eqb_eq in H. injection H as -> ->. split; reflexivity.
  - split; [|apply IH; exact H].
    apply String.eqb_neq. intros E. injection E as -> ->. vm_compute in H. discriminate H.
Qed.

Section Without.
Variable p : string.

Let keep : string -> bool := fun k => negb (k =? p).

Lemma keys_without (r : record) : Py.keys (without p r) = filter keep (Py.keys r).
Proof. unfold Py.keys, without. symmetry. apply (filter_map_fst keep r). Qed.

Lemma concat_keys_without (records : list record) :
  concat (map (@Py.keys json) (map (without p) records))
  = filter keep (concat (map (@Py.keys json) records)).
Proof.
  induction records as [|r records IH]; cbn [map concat]; [reflexivity|].
  rewrite filter_app, IH, keys_without. reflexivity.
Qed.

Lemma mem_filter_keep (x : string) (l : list string) :
  keep x = true -> Py.mem x (filter keep l) = Py.mem x l.
Proof.
  intros Hx. induction l as [|y l IH]; [reflexivity|].
  cbn [filter]. destruct (keep y) eqn:Hy.
  - unfold Py.mem in *. cbn [existsb]. rewrite IH. reflexivity.
  - unfold Py.mem in *. cbn [existsb]. rewrite IH.
    replace (x =? y) with false; [reflexivity|].
    symmetry. apply String.eqb_neq. intros ->. congruence.
Qed.

Lemma unique_from_filter (l : list string) :
  forall seen,
    pd.unique_from (filter keep seen) (filter keep l) = filter keep (pd.unique_from seen l).
Proof.
  induction l as [|x l IH]; intros seen; [reflexivity|].
  cbn [filter pd.unique_from]. destruct (keep x) eqn:Hx.
  - cbn [pd.unique_from]. rewrite (mem_filter_keep x seen Hx).
    destruct (Py.mem x seen).
    + apply IH.
    + cbn [filter]. rewrite Hx. f_equal. rewrite <- IH. cbn [filter]. rewrite Hx. reflexivity.
  - destruct (Py.mem x seen).
    + apply IH.
    + cbn [filter]. rewrite Hx. rewrite <- IH. cbn [filter]. rewrite Hx. reflexivity.
Qed.

Lemma union_keys_without (records : list record) :
  pd.union_keys (map (without p) records) = filter keep (pd.union_keys records).
Proof.
  unfold pd.union_keys. rewrite concat_keys_without.
  apply (unique_from_filter _ []).
Qed.

Lemma cell_of_without (r : record) (label : string) :
  label <> p -> pd.cell_of (without p r) label = pd.cell_of r label.
Proof.
  intros Hne. unfold pd.cell_of, without. f_equal.
  induction r as [|[k v] r IH]; [reflexivity|].
  cbn [filter fst Py.dict_get]. destruct (k =? p) eqn:E; cbn [negb].
  - apply String.eqb_eq in E. subst k.
    replace (p =? label) with false; [exact IH|].
    symmetry. apply String.eqb_neq. congruence.
  - cbn [Py.dict_get]. destruct (k =? label); [reflexivity|exact IH].
Qed.

Hypothesis Hput : Py.endswith p "_P" = true.

Lemma filter_filter_keep (q : string -> bool) (l : list string) :
  (forall x, q x = true -> x <> p) -> filter q (filter keep l) = filter q l.
Proof.
  intros Hq. induction l as [|x l IH]; [reflexivity|].
  cbn [filter]. destruct (keep x) eqn:Hx.
  - cbn [filter]. rewrite IH. reflexivity.
  - destruct (q x) eqn:Hqx; [|exact IH].
    exfalso. apply (Hq x Hqx). unfold keep in Hx. apply negb_false_iff in Hx.
    apply String.eqb_eq. exact Hx.
Qed.

Lemma leg_labels_without (suffix : string) (cols : list string) :
  leg_labels suffix (filter keep cols) = leg_labels suffix cols.
Proof.
  unfold leg_labels, general_labels, specific_stems.
  rewrite !filter_filter_keep; [reflexivity| |].
  - intros x Hx ->. rewrite (endswith_C_not_P p Hput) in Hx. discriminate Hx.
  - intros x Hx ->. rewrite Hput in Hx. discriminate Hx.
Qed.

Lemma getitem_without (records : list record) (labels : list string) :
  (forall label, In label labels -> label <> p) ->
  pd.getitem (pd.from_records (map (without p) records)) labels
  = pd.getitem (pd.from_records records) labels.
Proof.
  intros Hlabels.
  assert (Hmem : forall label, In label labels ->
            Py.mem label (pd.union_keys (map (without p) records))
            = Py.mem label (pd.union_keys records)).
  { intros label Hin. rewrite union_keys_without. apply mem_filter_keep.
    unfold keep. apply negb_true_iff, String.eqb_neq, Hlabels, Hin. }
  assert (Hfilter :
            filter (fun label => negb (Py.mem label (pd.union_keys (map (without p) records))))
                   labels
            = filter (fun label => negb (Py.mem label (pd.union_keys records))) labels).
  { apply filter_ext_in. intros label Hin. rewrite (Hmem label Hin). reflexivity. }
  destruct (filter (fun label => negb (Py.mem label (pd.union_keys records))) labels)
    as [|x missing] eqn:E.
  - assert (Hincl : incl labels (pd.union_keys records)).
    { intros label Hin. apply mem_In.
      destruct (Py.mem label (pd.union_keys records)) eqn:Em; [reflexivity|].
      assert (Hin' : In label (@nil string)).
      { rewrite <- E. apply filter_In. rewrite Em. auto. }
      destruct Hin'. }
    assert (Hincl' : incl labels (pd.union_keys (map (without p) records))).
    { intros label Hin. apply mem_In. rewrite (Hmem label Hin). apply mem_In, Hincl, Hin. }
    rewrite (getitem_from_records _ _ Hincl), (getitem_from_records _ _ Hincl').
    rewrite map_map. do 2 f_equal. apply map_ext. intros r.
    apply map_ext_in. intros label Hin. apply cell_of_without, Hlabels, Hin.
  - unfold pd.getitem. cbn [pd.from_records columns]. rewrite Hfilter, E. reflexivity.
Qed.
End Without.

(** X14: a put field without a call twin is left out without a word: when
    [p] ends in [_P] and no key of the records that ends in [_C] has the stem
    of [p], the call gives what it gives on the records without [p]. *)
Theorem clean_entire_market_data_drops_lone_put (records : list record) (p : string) :
  Py.endswith p "_P" = true ->
  (forall c, In c (pd.union_keys records) -> Py.endswith c "_C" = true ->
             (Py.replace c "_C" "" ++ "_P")%string <> p) ->
  reshape records = reshape (map (without p) records).
Proof.
  intros Hput Hlone. rewrite !reshape_clean_frame. f_equal. unfold clean_frame.
  change (columns (pd.from_records records)) with (pd.union_keys records).
  change (columns (pd.from_records (map (without p) records)))
    with (pd.union_keys (map (without p) records)).
  rewrite union_keys_without, !(leg_labels_without p Hput).
  rewrite !getitem_without; [reflexivity| |].
  - intros label Hin ->. unfold leg_labels in Hin. apply in_app_or in Hin.
    destruct Hin as [Hin|Hin].
    + apply filter_In in Hin. destruct Hin as [_ Hgen]. rewrite Hput in Hgen. discriminate Hgen.
    + unfold specific_stems in Hin. rewrite map_map in Hin. apply in_map_iff in Hin.
      destruct Hin as [c [E Hc]]. apply filter_In in Hc. destruct Hc as [Hc Hend].
      apply (Hlone c Hc Hend E).
  - intros label Hin ->. unfold leg_labels in Hin. apply in_app_or in Hin.
    destruct Hin as [Hin|Hin].
    + apply filter_In in Hin. destruct Hin as [_ Hgen]. rewrite Hput in Hgen. discriminate Hgen.
    + apply in_map_iff in Hin. destruct Hin as [stem [E _]].
      pose proof (endswith_app stem "_C") as HC. rewrite E in HC.
      rewrite (endswith_C_not_P p Hput) in HC. discriminate HC.
Qed.

Lemma clean_entire_market_data_drops_lone_put_witness :
  reshape [put_only_record] = reshape (map (without "pClosing_P") [put_only_record]).
Proof.
  apply (clean_entire_market_data_drops_lone_put [put_only_record] "pClosing_P").
  - reflexivity.
  - intros c Hc Hend E. vm_compute in Hc.
    destruct Hc as [<-|[<-|[<-|[<-|[]]]]]; try discriminate Hend; discriminate E.
Defined.

(** ** The labels of the frame *)

(** X15: for records with the keys of [OptionData], the labels of the frame
    follow the first record alone: its general keys in their order, under
    their names of [GENERAL_COLUMN_NAMES], then its call keys in their order,
    under the names [SPECIFIC_COLUMN_NAMES] gives their stems, then
    [option_type]; and no label occurs twice. *)
Theorem clean_entire_market_data_labels (r : record) (rest : list record) :
  Forall follows_shape (r :: rest) ->
  exists df,
    reshape (r :: rest) = Some (Return df) /\
    columns df
    = map (renamed GENERAL_COLUMN_NAMES) (filter is_general (Py.keys r))
      ++ map (fun c => renamed SPECIFIC_COLUMN_NAMES (removesuffix c "_C"))
             (filter (fun c => Py.endswith c "_C") (Py.keys r))
      ++ ["option_type"] /\
    NoDup (columns df).
Proof.
  intros Hall.
  pose proof (union_keys_schema OptionData_fields r rest
                (shape_distinct Shape_OptionData) (follows_shape_schema _ Hall)) as Hcols.
  assert (Hs : Shape (Py.keys r)).
  { inversion Hall as [|? ? Hr _]; subst.
    apply (Shape_Permutation OptionData_fields); [symmetry; exact Hr|exact Shape_OptionData]. }
  rewrite reshape_clean_frame, clean_frame_shaped by (rewrite Hcols; exact Hs).
  rewrite Hcols. eexists. split; [reflexivity|]. cbn [columns].
  split; [|apply (shape_labels Hs)].
  unfold final_labels. do 2 f_equal. apply map_ext_in.
  intros c Hc. rewrite (stem_removesuffix (Py.keys r) Hs c Hc). reflexivity.
Qed.

Lemma clean_entire_market_data_labels_witness :
  exists df,
    reshape [rev sample_record; sample_record] = Some (Return df) /\
    columns df
    = map (renamed GENERAL_COLUMN_NAMES) (filter is_general (Py.keys (rev sample_record)))
      ++ map (fun c => renamed SPECIFIC_COLUMN_NAMES (removesuffix c "_C"))
             (filter (fun c => Py.endswith c "_C") (Py.keys (rev sample_record)))
      ++ ["option_type"] /\
    NoDup (columns df).
Proof.
  apply (clean_entire_market_data_labels (rev sample_record) [sample_record]).
  apply Forall_cons; [exact sample_rev_follows_shape|].
  apply Forall_cons; [exact sample_follows_shape|].
  apply Forall_nil.
Defined.
